(** * coolmenu: the matcher and the menu state machine

    A shallow embedding of [coolmenu.py]: the helpers [fuzzy_score] and
    [scan_path], the logic of the class [CoolMenu] ([update_filter], [move],
    [visible_rows], [launch_selected]) together with the key handlers
    installed by [bind_keys], its [render_list] and [render_input], and what
    [main] does with the result of a session.  The file system and the
    terminal size are inputs.

    Python [int]s are [Z].  A Python [str] is a [string] whose characters are
    read as the code points below 256; on those, [str.lower] acts character
    by character and keeps the length.  The terminal height returned by
    [shutil.get_terminal_size] is an input of every call of [visible_rows]. *)

From Stdlib Require Import ZArith List String Ascii Bool Arith Lia.
From Stdlib Require Import Sorted Permutation RelationClasses.
Import ListNotations.

Local Open Scope string_scope.
Local Open Scope Z_scope.

(** ** Python string primitives *)

Module Py.

(** [str.lower] on one code point below 256: the letters A-Z and the
    capitals U+00C0..U+00DE (the sign U+00D7 apart) move up by 32. *)
Definition lower_char (c : ascii) : ascii :=
  let n := nat_of_ascii c in
  if ((65 <=? n) && (n <=? 90) ||
      (192 <=? n) && (n <=? 222) && negb (n =? 215))%nat
  then ascii_of_nat (n + 32)
  else c.

Fixpoint lower (s : string) : string :=
  match s with
  | EmptyString => EmptyString
  | String c s' => String (lower_char c) (lower s')
  end.

(** [str.isprintable] on one code point below 256: the controls, the
    no-break space U+00A0 and the soft hyphen U+00AD are not printable. *)
Definition isprintable_char (c : ascii) : bool :=
  let n := nat_of_ascii c in
  ((32 <=? n) && (n <=? 126) || (161 <=? n) && negb (n =? 173))%nat.

(** [s.isprintable()]: every character is printable; true of [""]. *)
Fixpoint isprintable (s : string) : bool :=
  match s with
  | EmptyString => true
  | String c s' => isprintable_char c && isprintable s'
  end.

(** [s.startswith(q)], the test [contains] makes at each position. *)
Fixpoint startswith (q s : string) : bool :=
  match q, s with
  | EmptyString, _ => true
  | String _ _, EmptyString => false
  | String a q', String b s' => Ascii.eqb a b && startswith q' s'
  end.

(** [q in s] on strings: [q] occurs in [s] as a contiguous block. *)
Fixpoint contains (q s : string) : bool :=
  startswith q s ||
  match s with
  | EmptyString => false
  | String _ s' => contains q s'
  end.

(** [s[:-1]]: all but the last character, [""] for [""]. *)
Fixpoint drop_last (s : string) : string :=
  match s with
  | EmptyString => EmptyString
  | String c EmptyString => EmptyString
  | String c s' => String c (drop_last s')
  end.

(** [l[i]] on a list: a negative index counts from the end, an index out
    of range raises [IndexError] ([None]). *)
Definition getitem {A : Type} (l : list A) (i : Z) : option A :=
  let n := Z.of_nat (List.length l) in
  if 0 <=? i then nth_error l (Z.to_nat i)
  else if - n <=? i then nth_error l (Z.to_nat (n + i))
  else None.

(** Truth value of a string or a list: empty is false. *)
Definition str_truthy (s : string) : bool :=
  match s with EmptyString => false | _ => true end.

Definition list_truthy {A : Type} (l : list A) : bool :=
  match l with [] => false | _ => true end.

End Py.

(** ** [fuzzy_score] *)

(** The inner [while ti < len(text)] loop for one pattern character [pc]:
    it returns [found] and the new [ti].  [String.get ti text] is [None]
    exactly when [ti >= len(text)].  Each turn increments [ti], so
    [len(text) - ti] turns are enough; [fuel] counts them. *)
Fixpoint scan (fuel : nat) (text : string) (pc : ascii) (ti : nat)
  : bool * nat :=
  match fuel with
  | O => (false, ti)
  | S fuel' =>
      match String.get ti text with
      | None => (false, ti)
      | Some c =>
          if Ascii.eqb c pc then (true, S ti)
          else scan fuel' text pc (S ti)
      end
  end.

(** The [for pc in pattern] loop with its two variables [score] and [ti],
    followed by the length penalty. *)
Fixpoint fuzzy_loop (pattern text : string) (score : Z) (ti : nat) : Z :=
  match pattern with
  | EmptyString => score - Z.of_nat (String.length text) / 4
  | String pc pattern' =>
      let '(found, ti') := scan (String.length text - ti) text pc ti in
      if found then fuzzy_loop pattern' text (score + 10) ti'
      else -1
  end.

Definition fuzzy_score (pattern text : string) : Z :=
  let pattern := Py.lower pattern in
  let text := Py.lower text in
  fuzzy_loop pattern text 0 0.

(** The words of the specification: the characters of [p] are found in [t]
    in order at strictly advancing positions.  [pos] lists one position of
    [t] per character of [p], each beyond the one before, none below
    [from]. *)
Fixpoint matched_at (p t : string) (from : nat) (pos : list nat) : Prop :=
  match p, pos with
  | EmptyString, [] => True
  | String c p', i :: pos' =>
      (from <= i)%nat /\ String.get i t = Some c /\ matched_at p' t (S i) pos'
  | _, _ => False
  end.

(** ** The menu state: the fields of [CoolMenu] the logic reads and writes *)

Record menu : Type := Menu {
  scroll : Z;
  items : list string;
  query : string;
  filtered : list string;
  selected : Z
}.

Definition set_query (q : string) (m : menu) : menu :=
  Menu (scroll m) (items m) q (filtered m) (selected m).

(** [CoolMenu.update_filter]: the view is recomputed from [items] and the
    lowered query, [selected] is set to 0; [scroll] is not assigned. *)
Definition update_filter (m : menu) : menu :=
  let q := Py.lower (query m) in
  let view :=
    if negb (Py.str_truthy q) then items m
    else List.filter (fun it => Py.contains q (Py.lower it)) (items m) in
  Menu (scroll m) (items m) (query m) view 0.

(** [CoolMenu.visible_rows]; [rows] is the terminal height
    [shutil.get_terminal_size((80, 20)).lines] at the time of the call. *)
Definition visible_rows (rows : Z) : Z := Z.max 1 (rows - 6).

(** [CoolMenu.move]. *)
Definition move (rows : Z) (delta : Z) (m : menu) : menu :=
  if negb (Py.list_truthy (filtered m)) then m
  else
    let sel :=
      Z.max 0 (Z.min (selected m + delta)
                     (Z.of_nat (List.length (filtered m)) - 1)) in
    let visible := visible_rows rows in
    let scr :=
      if sel <? scroll m then sel
      else if sel >=? scroll m + visible then sel - visible + 1
      else scroll m in
    Menu scr (items m) (query m) (filtered m) sel.

(** The session: the application runs with a menu, or [app.exit] has set
    its result ([None] for a cancellation), or a handler raised. *)
Inductive session : Type :=
| Running (m : menu)
| Exited (result : option string)
| Raised.

(** [CoolMenu.launch_selected]. *)
Definition launch_selected (m : menu) : session :=
  if negb (Py.list_truthy (filtered m)) then Running m
  else
    match Py.getitem (filtered m) (selected m) with
    | Some cmd => Exited (Some cmd)
    | None => Raised
    end.

(** The keys [bind_keys] tells apart; [Any data] is a key press with no
    binding of its own, carrying [event.data]. *)
Inductive key : Type :=
| Escape | CtrlC | Enter | Up | CtrlK | Down | CtrlJ | CtrlU
| Any (data : string).

(** Backspace as the handler of [<any>] recognises it: [event.data] is one
    of ["\b"] and ["\x7f"]. *)
Definition is_backspace (data : string) : bool :=
  String.eqb data (String (ascii_of_nat 8) EmptyString) ||
  String.eqb data (String (ascii_of_nat 127) EmptyString).

(** The handlers of [bind_keys]. *)
Definition on_key (rows : Z) (k : key) (m : menu) : session :=
  match k with
  | Escape | CtrlC => Exited None
  | Enter => launch_selected m
  | Up | CtrlK => Running (move rows (-1) m)
  | Down | CtrlJ => Running (move rows 1 m)
  | CtrlU => Running (update_filter (set_query EmptyString m))
  | Any data =>
      if Py.isprintable data then
        Running (update_filter (set_query (query m ++ data) m))
      else if is_backspace data then
        Running (update_filter (set_query (Py.drop_last (query m)) m))
      else Running m
  end.

(** [CoolMenu.__init__]: the fields are set, then [update_filter] runs. *)
Definition init (its : list string) : menu :=
  update_filter (Menu 0 its EmptyString its 0).

(** One key press, with the terminal height at that time; nothing is
    handled once the application is done. *)
Definition step (s : session) (e : Z * key) : session :=
  match s with
  | Running m => on_key (fst e) (snd e) m
  | _ => s
  end.

Definition run (its : list string) (evs : list (Z * key)) : session :=
  List.fold_left step evs (Running (init its)).

(** The menus the session can be in after some sequence of key presses. *)
Inductive reachable (its : list string) : menu -> Prop :=
| reach_init : reachable its (init its)
| reach_key : forall m rows k m',
    reachable its m -> on_key rows k m = Running m' -> reachable its m'.

(** The edit events: clear, a printable character, backspace. *)
Definition is_edit (k : key) : bool :=
  match k with
  | CtrlU => true
  | Any data => Py.isprintable data || is_backspace data
  | _ => false
  end.

(** The query an edit event leaves. *)
Definition edited_query (k : key) (q : string) : string :=
  match k with
  | CtrlU => EmptyString
  | Any data =>
      if Py.isprintable data then q ++ data
      else if is_backspace data then Py.drop_last q
      else q
  | _ => q
  end.

(** The words of the specification: [q] is a contiguous substring of [s]. *)
Definition substring_of (q s : string) : Prop :=
  exists pre post, s = pre ++ q ++ post.

(** The scroll invariant for a viewport of height [vh]. *)
Definition scroll_inv (vh : Z) (m : menu) : Prop :=
  0 <= scroll m /\ scroll m <= selected m /\ selected m < scroll m + vh.

(** The selection bounds. *)
Definition selection_inv (m : menu) : Prop :=
  filtered m <> [] ->
  0 <= selected m < Z.of_nat (List.length (filtered m)).

(** What every reachable menu satisfies, on top of [selection_inv]: the
    candidate list is the one given at construction and neither index is
    negative. *)
Definition bounds (its : list string) (m : menu) : Prop :=
  items m = its /\ 0 <= scroll m /\ 0 <= selected m /\ selection_inv m.

(** ** Scenarios *)

Module Scenario.

(** Scenario 1 of the specification. *)
Definition commands : list string := ["bash"; "cat"; "catdoc"; "echo"].

(** Two candidates in a terminal of 7 lines, one visible row. *)
Definition two : list string := ["a"; "b"].

(** Down, then Ctrl-U, the terminal 7 lines high throughout. *)
Definition down_clear : list (Z * key) := [(7, Down); (7, CtrlU)].

(** Down, then the character [a] is typed. *)
Definition down_type : list (Z * key) := [(7, Down); (7, Any "a")].

(** Down, then backspace. *)
Definition down_backspace : list (Z * key) :=
  [(7, Down); (7, Any (String (ascii_of_nat 127) EmptyString))].

(** Three candidates, Down once in a terminal of 8 lines (two visible
    rows). *)
Definition three : list string := ["a"; "b"; "c"].

Definition after_down : menu := Menu 0 three "" three 1.

End Scenario.

(** ** More Python primitives: padding, ranges, splitting, sorting, paths *)

Module PyStr.

Fixpoint spaces (n : nat) : string :=
  match n with
  | O => EmptyString
  | S n' => String " " (spaces n')
  end.

(** [s.ljust(width)]: [s] padded on the right with spaces up to [width]
    characters; [s] itself when it is that long already. *)
Definition ljust (s : string) (width : Z) : string :=
  s ++ spaces (Z.to_nat (width - Z.of_nat (String.length s))).

(** [range(start, stop)]: empty when [stop <= start]. *)
Definition range (start stop : Z) : list Z :=
  List.map (fun k => start + Z.of_nat k)
           (List.seq 0 (Z.to_nat (stop - start))).

(** [s.split(sep)] for a separator of one character: the pieces between
    the separators, [[""]] for the empty string. *)
Fixpoint split (sep : ascii) (s : string) : list string :=
  match s with
  | EmptyString => [EmptyString]
  | String c s' =>
      if Ascii.eqb c sep then EmptyString :: split sep s'
      else
        match split sep s' with
        | piece :: pieces => String c piece :: pieces
        | [] => [String c EmptyString]
        end
  end.

(** [name in seen] for a set of strings, kept as the list of its members. *)
Definition mem (name : string) (seen : list string) : bool :=
  List.existsb (String.eqb name) seen.

(** [list.sort()] on strings, which Python compares by code point, the
    shorter of two strings first when it is a prefix of the other:
    [String.leb].  Equal strings are identical, so the sorted arrangement
    of a list is unique and insertion gives the list Python's sort gives. *)
Fixpoint insert (x : string) (l : list string) : list string :=
  match l with
  | [] => [x]
  | y :: l' => if String.leb x y then x :: l else y :: insert x l'
  end.

Fixpoint sort (l : list string) : list string :=
  match l with
  | [] => []
  | x :: l' => insert x (sort l')
  end.

(** [s.endswith("/")]. *)
Fixpoint ends_with_slash (s : string) : bool :=
  match s with
  | EmptyString => false
  | String c EmptyString => Ascii.eqb c "/"
  | String _ s' => ends_with_slash s'
  end.

(** [os.path.join(a, b)] of [posixpath]. *)
Definition path_join (a b : string) : string :=
  if Py.startswith "/" b then b
  else if negb (Py.str_truthy a) || ends_with_slash a then a ++ b
  else a ++ "/" ++ b.

End PyStr.

(** ** Rendering: [render_list] and [render_input] *)

(** One turn of the loop of [render_list] for the index [i]: the styled
    line and the line break; [None] if [self.filtered[i]] raises.  [cols] is
    the terminal width [self.width()] reads. *)
Definition render_row (cols : Z) (m : menu) (i : Z)
  : option (list (string * string)) :=
  match Py.getitem (filtered m) i with
  | None => None
  | Some item =>
      let prefix := if i =? selected m then "> " else "  " in
      let style := if i =? selected m then "class:selected"
                   else "class:item" in
      Some [(style, PyStr.ljust (prefix ++ item) (cols - 2));
            ("", String (ascii_of_nat 10) EmptyString)]
  end.

Fixpoint render_rows (cols : Z) (m : menu) (indices : list Z)
  : option (list (string * string)) :=
  match indices with
  | [] => Some []
  | i :: indices' =>
      match render_row cols m i with
      | None => None
      | Some line =>
          match render_rows cols m indices' with
          | None => None
          | Some lines => Some (line ++ lines)%list
          end
      end
  end.

(** [CoolMenu.render_list], in a terminal of [rows] lines and [cols]
    columns. *)
Definition render_list (rows cols : Z) (m : menu)
  : option (list (string * string)) :=
  let visible := visible_rows rows in
  let start := scroll m in
  let stop := Z.min (start + visible) (Z.of_nat (List.length (filtered m))) in
  render_rows cols m (PyStr.range start stop).

(** [CoolMenu.render_input]. *)
Definition render_input (cols : Z) (m : menu) : list (string * string) :=
  let text := " Search: " ++ query m in
  [("class:input", PyStr.ljust text (cols - 2))].

(** How many of the rendered fragments carry the style [style]. *)
Definition count_style (style : string) (lines : list (string * string))
  : nat :=
  List.length (List.filter (fun l => String.eqb (fst l) style) lines).

(** ** [main] *)

(** What [main] does with the [result] of [menu.run()]: [Some (file, argv)]
    when it calls [os.execvp(result, [result])], [None] when it returns
    without doing so. *)
Definition main_exec (result : option string)
  : option (string * list string) :=
  match result with
  | Some cmd => if Py.str_truthy cmd then Some (cmd, [cmd]) else None
  | None => None
  end.

(** ** [scan_path] *)

(** What [os.listdir] gives: the names, or [PermissionError]. *)
Inductive listing : Type :=
| Listed (names : list string)
| PermissionDenied.

(** The file system as [scan_path] questions it. *)
Record filesystem : Type := Filesystem {
  isdir : string -> bool;
  listdir : string -> listing;
  access_x : string -> bool;
  isfile : string -> bool
}.

(** The loop over the names of one directory [d], with the set [seen] and
    the list [result] it extends. *)
Fixpoint scan_names (fs : filesystem) (d : string) (names : list string)
  (seen result : list string) : list string * list string :=
  match names with
  | [] => (seen, result)
  | name :: names' =>
      let full := PyStr.path_join d name in
      if negb (PyStr.mem name seen) && access_x fs full && isfile fs full
      then scan_names fs d names' (name :: seen) (result ++ [name])%list
      else scan_names fs d names' seen result
  end.

(** The loop over the directories of the search path. *)
Fixpoint scan_dirs (fs : filesystem) (dirs : list string)
  (seen result : list string) : list string :=
  match dirs with
  | [] => result
  | d :: dirs' =>
      if negb (isdir fs d) then scan_dirs fs dirs' seen result
      else
        match listdir fs d with
        | PermissionDenied => scan_dirs fs dirs' seen result
        | Listed names =>
            let '(seen', result') := scan_names fs d names seen result in
            scan_dirs fs dirs' seen' result'
        end
  end.

(** [scan_path]; [path_env] is [os.environ.get("PATH")]. *)
Definition scan_path (fs : filesystem) (path_env : option string)
  : list string :=
  let path := match path_env with Some p => p | None => EmptyString end in
  PyStr.sort (scan_dirs fs (PyStr.split ":" path) [] []).

(** A name [scan_path] is to find: an executable regular file listed in a
    readable directory of the search path. *)
Definition on_path (fs : filesystem) (dirs : list string) (name : string)
  : Prop :=
  exists d names,
    In d dirs /\ isdir fs d = true /\ listdir fs d = Listed names /\
    In name names /\
    access_x fs (PyStr.path_join d name) = true /\
    isfile fs (PyStr.path_join d name) = true.

(** ** More scenarios *)

Module Scenario2.

(** Two directories on the path, [cat] in both, [notes] not executable, the
    second directory listed before [/bin] sorts. *)
Definition fs : filesystem :=
  Filesystem
    (fun d => String.eqb d "/usr/bin" || String.eqb d "/bin")
    (fun d => if String.eqb d "/usr/bin" then Listed ["ls"; "cat"; "notes"]
              else if String.eqb d "/bin" then Listed ["cat"; "bash"]
              else PermissionDenied)
    (fun f => negb (String.eqb f "/usr/bin/notes"))
    (fun f => true).

Definition path : string := "/usr/bin:/nowhere:/bin".

(** A view of five candidates, the third selected, scrolled by one. *)
Definition five : list string := ["a"; "b"; "c"; "d"; "e"].

Definition scrolled : menu := Menu 1 five "" five 2.

Definition backspace : string := String (ascii_of_nat 127) EmptyString.

End Scenario2.

(** ** Facts on the string primitives *)

Lemma get_none_iff (s : string) (n : nat) :
  String.get n s = None <-> (String.length s <= n)%nat.
Proof.
  revert n; induction s as [|c s IH]; intros n; simpl.
  - split; [lia | reflexivity].
  - destruct n as [|n]; simpl.
    + split; [discriminate | lia].
    + rewrite IH; lia.
Qed.

Lemma lower_length (s : string) :
  String.length (Py.lower s) = String.length s.
Proof. induction s as [|c s IH]; simpl; congruence. Qed.

Lemma startswith_spec (q s : string) :
  Py.startswith q s = true <-> exists post, s = q ++ post.
Proof.
  revert s; induction q as [|a q IH]; intros s; simpl.
  - split; [exists s; reflexivity | reflexivity].
  - destruct s as [|b s].
    + split; [discriminate | intros [post H]; discriminate].
    + rewrite andb_true_iff, Ascii.eqb_eq, IH. split.
      * intros [-> [post ->]]. exists post; reflexivity.
      * intros [post H]. injection H as -> ->. split; [reflexivity|].
        exists post; reflexivity.
Qed.

Lemma contains_spec (q s : string) :
  Py.contains q s = true <-> substring_of q s.
Proof.
  unfold substring_of. induction s as [|b s IH]; simpl.
  - rewrite orb_false_r, startswith_spec. split.
    + intros [post H]. exists EmptyString, post. exact H.
    + intros [pre [post H]]. destruct pre; simpl in H; [|discriminate].
      exists post; exact H.
  - rewrite orb_true_iff, startswith_spec, IH. split.
    + intros [[post H] | [pre [post H]]].
      * exists EmptyString, post. exact H.
      * exists (String b pre), post. simpl. rewrite H. reflexivity.
    + intros [pre [post H]]. destruct pre as [|c pre]; simpl in H.
      * left. exists post. exact H.
      * right. injection H as _ H. exists pre, post. exact H.
Qed.

Lemma contains_empty (s : string) : Py.contains EmptyString s = true.
Proof. destruct s; reflexivity. Qed.

(** ** The scan of [fuzzy_score] *)

(** With the fuel [fuzzy_loop] gives it, [scan] stops where the [while]
    loop stops: at the first occurrence of [pc] at or after [ti], or at
    the end of [text] when there is none. *)
Lemma scan_first (fuel : nat) (text : string) (pc : ascii) (ti : nat) :
  (String.length text - ti <= fuel)%nat ->
  (exists j, (ti <= j)%nat /\ String.get j text = Some pc /\
             (forall k, (ti <= k < j)%nat -> String.get k text <> Some pc) /\
             scan fuel text pc ti = (true, S j))
  \/
  ((forall k, (ti <= k)%nat -> String.get k text <> Some pc) /\
   fst (scan fuel text pc ti) = false).
Proof.
  revert ti; induction fuel as [|fuel IH]; intros ti Hfuel; simpl.
  - right. split; [|reflexivity]. intros k Hk.
    assert (String.get k text = None) as -> by (apply get_none_iff; lia).
    discriminate.
  - destruct (String.get ti text) as [c|] eqn:Hget.
    + destruct (Ascii.eqb c pc) eqn:Hc.
      * apply Ascii.eqb_eq in Hc; subst c. left. exists ti.
        repeat split; try assumption; try lia.
      * apply Ascii.eqb_neq in Hc.
        assert (Hne : forall k, k = ti -> String.get k text <> Some pc)
          by (intros k -> ; rewrite Hget; congruence).
        destruct (IH (S ti)) as [[j [Hj [Hg [Hfirst Hs]]]] | [Hnone Hs]];
          [lia | left | right].
        -- exists j. repeat split; try assumption; try lia.
           intros k Hk. destruct (Nat.eq_dec k ti) as [E|E]; [auto|].
           apply Hfirst; lia.
        -- split; [|exact Hs]. intros k Hk.
           destruct (Nat.eq_dec k ti) as [E|E]; [auto|]. apply Hnone; lia.
    + right. split; [|reflexivity]. apply get_none_iff in Hget.
      intros k Hk.
      assert (String.get k text = None) as -> by (apply get_none_iff; lia).
      discriminate.
Qed.

Lemma matched_at_weaken (p t : string) (from from' : nat) (pos : list nat) :
  (from' <= from)%nat -> matched_at p t from pos -> matched_at p t from' pos.
Proof.
  destruct p as [|c p], pos as [|i pos]; simpl; try tauto.
  intros Hle [Hi H]. split; [lia | exact H].
Qed.

Lemma matched_at_length (p t : string) (from : nat) (pos : list nat) :
  matched_at p t from pos -> List.length pos = String.length p.
Proof.
  revert from pos; induction p as [|c p IH]; intros from [|i pos]; simpl;
    try tauto.
  intros [_ [_ H]]. f_equal. exact (IH _ _ H).
Qed.

(** The loop of [fuzzy_score] against the words of the specification. *)
Lemma fuzzy_loop_spec (p t : string) (score : Z) (ti : nat) :
  ((exists pos, matched_at p t ti pos) /\
   fuzzy_loop p t score ti =
     score + 10 * Z.of_nat (String.length p)
     - Z.of_nat (String.length t) / 4)
  \/
  ((forall pos, ~ matched_at p t ti pos) /\ fuzzy_loop p t score ti = -1).
Proof.
  revert score ti; induction p as [|c p IH]; intros score ti.
  - left. split; [exists []; exact I|]. simpl. lia.
  - cbn [fuzzy_loop].
    destruct (scan_first (String.length t - ti) t c ti (le_n _))
      as [[j [Hj [Hg [Hfirst Hs]]]] | [Hnone Hs]].
    + rewrite Hs.
      destruct (IH (score + 10) (S j)) as [[[pos Hpos] Hv] | [Hno Hv]].
      * left. split.
        -- exists (j :: pos). simpl. auto.
        -- rewrite Hv. cbn [String.length]. lia.
      * right. split; [|exact Hv].
        intros [|i pos]; simpl; [tauto|]. intros [Hi [Hgi Hrest]].
        assert (j <= i)%nat.
        { destruct (le_lt_dec j i) as [L|L]; [exact L|].
          exfalso. apply (Hfirst i); [lia | exact Hgi]. }
        apply (Hno pos). apply matched_at_weaken with (from := S i);
          [lia | exact Hrest].
    + right. destruct (scan _ t c ti) as [found ti'] eqn:E. simpl in Hs.
      subst found. split; [|reflexivity].
      intros [|i pos]; simpl; [tauto|]. intros [Hi [Hgi _]].
      exact (Hnone i Hi Hgi).
Qed.

(** C3: [fuzzy_score] lowers both strings and looks for the characters of
    the pattern in the text in order, at strictly advancing positions.  If
    they are all found the score is [10 * len(P) - len(T) // 4]; if one is
    not found before the text ends the score is [-1].  So
    [fuzzy_score("gt", "git") = 20] and [fuzzy_score("xyz", "abc") = -1]. *)
Theorem fuzzy_score_spec :
  (forall P T : string,
      ((exists pos, matched_at (Py.lower P) (Py.lower T) 0 pos) /\
       fuzzy_score P T =
         10 * Z.of_nat (String.length P) - Z.of_nat (String.length T) / 4)
      \/
      ((forall pos, ~ matched_at (Py.lower P) (Py.lower T) 0 pos) /\
       fuzzy_score P T = -1))
  /\ fuzzy_score "gt" "git" = 20
  /\ fuzzy_score "xyz" "abc" = -1.
Proof.
  split; [|split; reflexivity].
  intros P T. unfold fuzzy_score.
  destruct (fuzzy_loop_spec (Py.lower P) (Py.lower T) 0 0)
    as [[Hm Hv] | [Hm Hv]]; [left | right]; (split; [exact Hm|]).
  - rewrite Hv, !lower_length. lia.
  - exact Hv.
Qed.

(** C6: a match that succeeds can score [-1] or less: the empty pattern is
    found in every text, and on ["abcd"] it scores the value that stands for
    no match, on ["abcdefgh"] a lower one; so does a one-letter pattern on
    a text of 44 characters. *)
Theorem fuzzy_score_sentinel_clash :
  matched_at (Py.lower "") (Py.lower "abcd") 0 [] /\
  fuzzy_score "" "abcd" = -1 /\
  fuzzy_score "" "abcdefgh" = -2 /\
  matched_at (Py.lower "a")
    (Py.lower "a0123456789012345678901234567890123456789012") 0 [0%nat] /\
  fuzzy_score "a" "a0123456789012345678901234567890123456789012" = -1.
Proof.
  split; [exact I|]. split; [reflexivity|]. split; [reflexivity|].
  split; [|reflexivity].
  simpl. split; [apply le_n|]. split; [reflexivity | exact I].
Qed.

(** ** [visible_rows] *)

(** C9: whatever height the terminal reports, the viewport height the menu
    works with is at least 1: it is [rows - 6] when that is positive, and 1
    otherwise. *)
Theorem visible_rows_at_least_1 (rows : Z) :
  1 <= visible_rows rows /\
  (visible_rows rows = 1 \/ visible_rows rows = rows - 6) /\
  visible_rows 6 = 1 /\ visible_rows 0 = 1 /\ visible_rows (-3) = 1.
Proof. unfold visible_rows. repeat split; lia. Qed.

(** ** [update_filter] and the edit keys *)

Lemma update_filter_view (m : menu) :
  filtered (update_filter m) =
  List.filter (fun it => Py.contains (Py.lower (query m)) (Py.lower it))
              (items m).
Proof.
  unfold update_filter; simpl.
  destruct (Py.lower (query m)) as [|c q] eqn:E; simpl; [|reflexivity].
  symmetry. apply forallb_filter_id. apply forallb_forall.
  intros x _. apply contains_empty.
Qed.

(** What an edit key does to each field: [scroll] is the one it leaves. *)
Lemma on_key_edit (rows : Z) (k : key) (m : menu) :
  is_edit k = true ->
  on_key rows k m =
  Running (update_filter (set_query (edited_query k (query m)) m)).
Proof.
  destruct k as [| | | | | | | |data]; simpl; try discriminate; auto.
  destruct (Py.isprintable data); simpl; [reflexivity|].
  intros ->. reflexivity.
Qed.

(** C4: after an edit the filtered view holds the candidates whose lowered
    form has the lowered query as a contiguous substring, and no others, in
    the order of the candidate list; for the empty query it is the candidate
    list. *)
Theorem filtered_view_after_edit (rows : Z) (k : key) (m : menu) :
  is_edit k = true ->
  exists m',
    on_key rows k m = Running m' /\
    items m' = items m /\
    filtered m' =
      List.filter
        (fun c => Py.contains (Py.lower (query m')) (Py.lower c)) (items m) /\
    (forall c, In c (filtered m') <->
               In c (items m) /\
               substring_of (Py.lower (query m')) (Py.lower c)) /\
    (query m' = "" -> filtered m' = items m).
Proof.
  intros Hk. eexists. split; [apply on_key_edit; exact Hk|].
  set (m0 := set_query _ m).
  assert (Hv := update_filter_view m0).
  change (query (update_filter m0)) with (query m0).
  change (items m0) with (items m) in Hv.
  split; [reflexivity|]. split; [exact Hv|]. split.
  - intros c. rewrite Hv, filter_In, contains_spec. reflexivity.
  - intros Hq. unfold update_filter. rewrite Hq. reflexivity.
Qed.

Lemma filtered_view_after_edit_witness :
  is_edit (Any "cat") = true /\
  exists m',
    on_key 20 (Any "cat") (init Scenario.commands) = Running m' /\
    filtered m' = ["cat"; "catdoc"].
Proof.
  split; [reflexivity|].
  destruct (filtered_view_after_edit 20 (Any "cat")
              (init Scenario.commands) eq_refl)
    as [m' [Hrun [_ [Hview _]]]].
  exists m'. split; [exact Hrun|].
  rewrite Hview. injection Hrun as <-. reflexivity.
Defined.

(** ** [move] *)

Lemma list_truthy_nonempty {A : Type} (l : list A) :
  l <> [] -> Py.list_truthy l = true.
Proof. destruct l; [congruence | reflexivity]. Qed.

Lemma length_pos {A : Type} (l : list A) :
  l <> [] -> 1 <= Z.of_nat (List.length l).
Proof. destruct l; [congruence | simpl; lia]. Qed.

Lemma move_empty (rows delta : Z) (m : menu) :
  filtered m = [] -> move rows delta m = m.
Proof. unfold move. intros ->. reflexivity. Qed.

Lemma move_selected (rows delta : Z) (m : menu) :
  filtered m <> [] ->
  selected (move rows delta m) =
  Z.max 0 (Z.min (selected m + delta)
                 (Z.of_nat (List.length (filtered m)) - 1)).
Proof.
  intros H. unfold move. rewrite (list_truthy_nonempty _ H). reflexivity.
Qed.

Lemma move_fields (rows delta : Z) (m : menu) :
  query (move rows delta m) = query m /\
  filtered (move rows delta m) = filtered m /\
  items (move rows delta m) = items m.
Proof.
  unfold move. destruct (negb (Py.list_truthy (filtered m)));
    repeat split.
Qed.

(** On a view that is not empty, [move] leaves the selection inside the
    window of the height it read, whatever the scroll offset was. *)
Lemma move_rescrolls (rows delta : Z) (m : menu) :
  filtered m <> [] -> 0 <= scroll m ->
  scroll_inv (visible_rows rows) (move rows delta m).
Proof.
  intros H Hs. unfold scroll_inv, move.
  rewrite (list_truthy_nonempty _ H). cbn [negb scroll selected].
  pose proof (length_pos _ H) as Hlen.
  assert (Hv : 1 <= visible_rows rows) by (unfold visible_rows; lia).
  set (sel := Z.max 0 _).
  assert (0 <= sel) by (subst sel; lia).
  destruct (sel <? scroll m) eqn:E1; [apply Z.ltb_lt in E1; lia|].
  apply Z.ltb_ge in E1.
  destruct (sel >=? scroll m + visible_rows rows) eqn:E2.
  - rewrite Z.geb_leb in E2. apply Z.leb_le in E2. lia.
  - rewrite Z.geb_leb in E2. apply Z.leb_gt in E2. lia.
Qed.

Lemma move_bounds (its : list string) (rows delta : Z) (m : menu) :
  bounds its m -> bounds its (move rows delta m).
Proof.
  intros Hb. destruct (filtered m) as [|c l] eqn:Hf.
  - rewrite move_empty; assumption.
  - assert (Hne : filtered m <> []) by (rewrite Hf; discriminate).
    destruct Hb as [Hi [Hs [_ _]]].
    destruct (move_rescrolls rows delta m Hne Hs) as [Hs' _].
    destruct (move_fields rows delta m) as [_ [Hfl Hit]].
    pose proof (move_selected rows delta m Hne) as Hsel.
    pose proof (length_pos _ Hne) as Hlen.
    unfold bounds, selection_inv. rewrite Hit, Hfl, Hsel.
    repeat split; try assumption; lia.
Qed.

Lemma update_filter_bounds (m : menu) :
  0 <= scroll m -> bounds (items m) (update_filter m).
Proof.
  intros Hs. unfold bounds, selection_inv.
  change (selected (update_filter m)) with 0.
  repeat split; try assumption; try lia.
  pose proof (length_pos _ H). lia.
Qed.

(** ** Reachable menus *)

Lemma on_key_bounds (its : list string) (rows : Z) (k : key) (m m' : menu) :
  on_key rows k m = Running m' -> bounds its m -> bounds its m'.
Proof.
  intros Hk Hb.
  assert (Hup : forall q, bounds its (update_filter (set_query q m))).
  { intros q. destruct Hb as [Hi [Hs _]]. rewrite <- Hi.
    apply (update_filter_bounds (set_query q m)). exact Hs. }
  destruct k as [| | | | | | | |data]; simpl in Hk;
    try discriminate;
    try (injection Hk as <-; first [apply move_bounds; exact Hb | apply Hup]).
  - unfold launch_selected in Hk.
    destruct (negb (Py.list_truthy (filtered m)));
      [injection Hk as <-; exact Hb|].
    destruct (Py.getitem (filtered m) (selected m)); discriminate.
  - destruct (Py.isprintable data); [injection Hk as <-; apply Hup|].
    destruct (is_backspace data); injection Hk as <-; [apply Hup | exact Hb].
Qed.

Lemma reachable_bounds (its : list string) (m : menu) :
  reachable its m -> bounds its m.
Proof.
  induction 1 as [|m rows k m' _ IH Hk].
  - apply (update_filter_bounds (Menu 0 its EmptyString its 0)).
    simpl; lia.
  - exact (on_key_bounds its rows k m m' Hk IH).
Qed.

Lemma run_snoc (its : list string) (evs : list (Z * key)) (e : Z * key) :
  run its (evs ++ [e]) = step (run its evs) e.
Proof. unfold run. rewrite fold_left_app. reflexivity. Qed.

(** [reachable] is what [run] can end in. *)
Lemma run_reachable (its : list string) (evs : list (Z * key)) (m : menu) :
  run its evs = Running m -> reachable its m.
Proof.
  revert m; induction evs as [|e evs IH] using rev_ind; intros m.
  - intros H. injection H as <-. constructor.
  - rewrite run_snoc. destruct (run its evs) as [m0| |] eqn:E; simpl;
      try discriminate.
    intros H. exact (reach_key its m0 (fst e) (snd e) m (IH m0 eq_refl) H).
Qed.

Lemma reachable_run (its : list string) (m : menu) :
  reachable its m -> exists evs, run its evs = Running m.
Proof.
  induction 1 as [|m rows k m' _ [evs IH] Hk].
  - exists []. reflexivity.
  - exists (evs ++ [(rows, k)])%list. rewrite run_snoc, IH. exact Hk.
Qed.

Lemma exited_stays (r : option string) (evs : list (Z * key)) :
  List.fold_left step evs (Exited r) = Exited r.
Proof. induction evs as [|e evs IH]; simpl; [reflexivity | exact IH]. Qed.

Lemma after_down_reachable :
  reachable Scenario.three Scenario.after_down.
Proof.
  apply (run_reachable Scenario.three [(8, Down)]). reflexivity.
Qed.

(** ** The claims on the state machine *)

(** C5: in every menu the session can reach, a view that is not empty has
    the selection among its indices; and [move] sets the selection to
    [selected + delta] clamped into [0, len(filtered) - 1]. *)
Theorem selection_bounds (its : list string) (m : menu) :
  reachable its m -> filtered m <> [] ->
  0 <= selected m < Z.of_nat (List.length (filtered m)) /\
  forall rows delta,
    selected (move rows delta m) =
      Z.max 0 (Z.min (selected m + delta)
                     (Z.of_nat (List.length (filtered m)) - 1)) /\
    0 <= selected (move rows delta m)
      <= Z.of_nat (List.length (filtered m)) - 1.
Proof.
  intros Hr Hne. destruct (reachable_bounds its m Hr) as [_ [_ [_ Hsel]]].
  split; [exact (Hsel Hne)|]. intros rows delta.
  rewrite (move_selected rows delta m Hne).
  pose proof (length_pos _ Hne). split; [reflexivity | lia].
Qed.

Lemma selection_bounds_witness :
  reachable Scenario.commands (init Scenario.commands) /\
  filtered (init Scenario.commands) <> [] /\
  selected (move 20 (-1) (init Scenario.commands)) = 0 /\
  selected (move 20 9 (init Scenario.commands)) = 3.
Proof.
  assert (Hr : reachable Scenario.commands (init Scenario.commands))
    by constructor.
  assert (Hne : filtered (init Scenario.commands) <> []) by discriminate.
  split; [exact Hr|]. split; [exact Hne|].
  destruct (selection_bounds _ _ Hr Hne) as [_ Hmove].
  split.
  - destruct (Hmove 20 (-1)) as [-> _]. reflexivity.
  - destruct (Hmove 20 9) as [-> _]. reflexivity.
Defined.

(** C7: on Enter, a reachable menu with an empty view stays as it is and
    the session goes on; otherwise the session ends, for good, with the
    candidate at position [selected] of the view as its result. *)
Theorem confirm_spec (its : list string) (rows : Z) (m : menu) :
  reachable its m ->
  (filtered m = [] /\ on_key rows Enter m = Running m)
  \/
  (exists cmd,
      filtered m <> [] /\
      nth_error (filtered m) (Z.to_nat (selected m)) = Some cmd /\
      on_key rows Enter m = Exited (Some cmd) /\
      forall evs, List.fold_left step evs (on_key rows Enter m)
                  = Exited (Some cmd)).
Proof.
  intros Hr. simpl. unfold launch_selected.
  destruct (filtered m) as [|c l] eqn:Hf; [left; split; reflexivity|].
  right. assert (Hne : filtered m <> []) by (rewrite Hf; discriminate).
  destruct (reachable_bounds its m Hr) as [_ [_ [_ Hsel]]].
  specialize (Hsel Hne). rewrite Hf in Hsel. cbn [Py.list_truthy negb].
  unfold Py.getitem.
  destruct (0 <=? selected m) eqn:E; [|apply Z.leb_gt in E; lia].
  destruct (nth_error (c :: l) (Z.to_nat (selected m))) as [cmd|] eqn:En.
  - exists cmd. split; [discriminate|]. split; [reflexivity|].
    split; [reflexivity|]. intros evs. apply exited_stays.
  - apply nth_error_None in En. lia.
Qed.

Lemma confirm_spec_witness :
  reachable Scenario.commands (init Scenario.commands) /\
  on_key 20 Enter (init Scenario.commands) = Exited (Some "bash").
Proof.
  assert (Hr : reachable Scenario.commands (init Scenario.commands))
    by constructor.
  split; [exact Hr|].
  destruct (confirm_spec Scenario.commands 20 _ Hr)
    as [[He _] | [cmd [_ [Hn [Hx _]]]]]; [discriminate He|].
  rewrite Hx. injection Hn as <-. reflexivity.
Defined.

(** C8, as the code has it: [move] leaves a menu with an empty view as it
    is, whatever [delta]; and [move] by 0 leaves a reachable menu as it is
    when the selection is inside the window of the height [move] reads,
    [scroll <= selected < scroll + visible_rows]. *)
Theorem move_noop (rows delta : Z) (m : menu) :
  (filtered m = [] -> move rows delta m = m) /\
  (forall its,
      reachable its m ->
      scroll m <= selected m < scroll m + visible_rows rows ->
      move rows 0 m = m).
Proof.
  split; [apply move_empty|]. intros its Hr Hwin.
  destruct (filtered m) as [|c l] eqn:Hf; [apply move_empty; exact Hf|].
  assert (Hne : filtered m <> []) by (rewrite Hf; discriminate).
  destruct (reachable_bounds its m Hr) as [_ [_ [_ Hsel]]].
  specialize (Hsel Hne). unfold move.
  rewrite (list_truthy_nonempty _ Hne). cbn [negb].
  replace (Z.max 0 _) with (selected m) by lia.
  destruct (selected m <? scroll m) eqn:E1; [apply Z.ltb_lt in E1; lia|].
  destruct (selected m >=? scroll m + visible_rows rows) eqn:E2.
  - rewrite Z.geb_leb in E2. apply Z.leb_le in E2. lia.
  - destruct m; reflexivity.
Qed.

Lemma move_noop_witness :
  (filtered (init []) = [] /\ move 20 5 (init []) = init []) /\
  (reachable Scenario.three Scenario.after_down /\
   scroll Scenario.after_down <= selected Scenario.after_down
     < scroll Scenario.after_down + visible_rows 8 /\
   move 8 0 Scenario.after_down = Scenario.after_down).
Proof.
  split.
  - split; [reflexivity|].
    destruct (move_noop 20 5 (init [])) as [He _]. apply He. reflexivity.
  - assert (Hw : scroll Scenario.after_down <= selected Scenario.after_down
                 < scroll Scenario.after_down + visible_rows 8)
      by (unfold visible_rows; simpl; lia).
    split; [exact after_down_reachable|]. split; [exact Hw|].
    destruct (move_noop 8 0 Scenario.after_down) as [_ Hz].
    exact (Hz Scenario.three after_down_reachable Hw).
Defined.

(** C8 as stated fails: after Down in a terminal of 8 lines the menu has
    selection 1 and scroll 0; once the terminal is 7 lines high, [move] by
    0 sets scroll to 1. *)
Lemma move_zero_rescrolls :
  run Scenario.three [(8, Down)] = Running Scenario.after_down /\
  reachable Scenario.three Scenario.after_down /\
  move 7 0 Scenario.after_down
    = Menu 1 Scenario.three "" Scenario.three 1 /\
  move 7 0 Scenario.after_down <> Scenario.after_down.
Proof.
  split; [reflexivity|]. split; [exact after_down_reachable|].
  split; [reflexivity | discriminate].
Qed.

(** C10: [move] changes neither the query, nor the filtered view, nor the
    candidate list, and the four navigation keys do nothing but [move]. *)
Theorem move_frame (rows delta : Z) (m : menu) :
  query (move rows delta m) = query m /\
  filtered (move rows delta m) = filtered m /\
  items (move rows delta m) = items m /\
  on_key rows Up m = Running (move rows (-1) m) /\
  on_key rows CtrlK m = Running (move rows (-1) m) /\
  on_key rows Down m = Running (move rows 1 m) /\
  on_key rows CtrlJ m = Running (move rows 1 m).
Proof.
  destruct (move_fields rows delta m) as [Hq [Hf Hi]].
  repeat split; assumption.
Qed.

(** C1 fails on the code for the scroll offset: the menu reached by Down
    in a terminal of 7 lines has scroll 1, and clearing the query, typing a
    character and backspace each set the selection to 0, recompute the view
    and leave scroll at 1. *)
Theorem edit_keeps_scroll :
  run Scenario.two [(7, Down)]
    = Running (Menu 1 Scenario.two "" Scenario.two 1) /\
  run Scenario.two Scenario.down_clear
    = Running (Menu 1 Scenario.two "" Scenario.two 0) /\
  run Scenario.two Scenario.down_type
    = Running (Menu 1 Scenario.two "a" ["a"] 0) /\
  run Scenario.two Scenario.down_backspace
    = Running (Menu 1 Scenario.two "" Scenario.two 0) /\
  forall m, scroll (update_filter m) = scroll m.
Proof. repeat split. Qed.

(** C2 fails on the code: after Down and Ctrl-U in a terminal of 7 lines
    the reachable menu has scroll 1 above selection 0, outside the window
    of any height. *)
Theorem scroll_inv_broken_by_edit :
  exists m,
    run Scenario.two Scenario.down_clear = Running m /\
    reachable Scenario.two m /\
    scroll m = 1 /\ selected m = 0 /\
    forall vh, ~ scroll_inv vh m.
Proof.
  exists (Menu 1 Scenario.two "" Scenario.two 0).
  split; [reflexivity|].
  split; [apply (run_reachable _ Scenario.down_clear); reflexivity|].
  split; [reflexivity|]. split; [reflexivity|].
  intros vh [_ [H _]]. simpl in H. lia.
Qed.

(** ** More on [fuzzy_score] *)

Lemma lower_char_idem (c : ascii) :
  Py.lower_char (Py.lower_char c) = Py.lower_char c.
Proof. destruct c as [[] [] [] [] [] [] [] []]; reflexivity. Qed.

Lemma lower_idem (s : string) : Py.lower (Py.lower s) = Py.lower s.
Proof.
  induction s as [|c s IH]; simpl; [reflexivity|].
  rewrite lower_char_idem, IH. reflexivity.
Qed.

Lemma lower_app (a b : string) :
  Py.lower (a ++ b) = Py.lower a ++ Py.lower b.
Proof. induction a as [|c a IH]; simpl; [reflexivity | now rewrite IH]. Qed.

Lemma str_app_assoc (a b c : string) : (a ++ b) ++ c = a ++ b ++ c.
Proof. induction a as [|x a IH]; simpl; [reflexivity | now rewrite IH]. Qed.

Lemma str_app_nil_r (a : string) : a ++ "" = a.
Proof. induction a as [|x a IH]; simpl; [reflexivity | now rewrite IH]. Qed.

Lemma str_app_length (a b : string) :
  String.length (a ++ b) = (String.length a + String.length b)%nat.
Proof. induction a as [|x a IH]; simpl; [reflexivity | now rewrite IH]. Qed.

Lemma get_app_here (pre : string) (c : ascii) (rest : string) :
  String.get (String.length pre) (pre ++ String c rest) = Some c.
Proof. induction pre as [|x pre IH]; simpl; [reflexivity | exact IH]. Qed.

(** Positions that match leave room for the rest of the pattern. *)
Lemma matched_at_room (p t : string) (from : nat) (pos : list nat) :
  matched_at p t from pos ->
  (String.length p <= String.length t - from)%nat.
Proof.
  revert from pos; induction p as [|c p IH]; intros from [|i pos]; simpl;
    try tauto.
  - intros _. lia.
  - intros [Hi [Hg Hrest]]. specialize (IH _ _ Hrest).
    assert (i < String.length t)%nat.
    { destruct (le_lt_dec (String.length t) i) as [L|L]; [|exact L].
      apply get_none_iff in L. congruence. }
    lia.
Qed.

(** A contiguous occurrence is a match at consecutive positions. *)
Lemma matched_at_block (p pre post : string) (from : nat) :
  (from <= String.length pre)%nat ->
  matched_at p (pre ++ p ++ post) from
    (List.seq (String.length pre) (String.length p)).
Proof.
  revert pre from; induction p as [|c p IH]; intros pre from Hfrom; simpl.
  - exact I.
  - split; [exact Hfrom|]. split; [apply get_app_here|].
    specialize (IH (pre ++ String c "") (S (String.length pre))).
    rewrite str_app_assoc, str_app_length in IH. simpl in IH.
    rewrite Nat.add_1_r in IH. apply IH. lia.
Qed.

Lemma fuzzy_score_found (P T : string) (pos : list nat) :
  matched_at (Py.lower P) (Py.lower T) 0 pos ->
  fuzzy_score P T =
  10 * Z.of_nat (String.length P) - Z.of_nat (String.length T) / 4.
Proof.
  intros Hm. unfold fuzzy_score.
  destruct (fuzzy_loop_spec (Py.lower P) (Py.lower T) 0 0)
    as [[_ Hv] | [Hno _]]; [|exfalso; exact (Hno pos Hm)].
  rewrite Hv, !lower_length. lia.
Qed.

Lemma fuzzy_score_not_found (P T : string) :
  (forall pos, ~ matched_at (Py.lower P) (Py.lower T) 0 pos) ->
  fuzzy_score P T = -1.
Proof.
  intros Hno. unfold fuzzy_score.
  destruct (fuzzy_loop_spec (Py.lower P) (Py.lower T) 0 0)
    as [[[pos Hm] _] | [_ Hv]]; [exfalso; exact (Hno pos Hm) | exact Hv].
Qed.

Lemma matched_at_refl (p : string) :
  matched_at p p 0 (List.seq 0 (String.length p)).
Proof.
  pose proof (matched_at_block p "" "" 0 (le_n _)) as H.
  simpl in H. rewrite str_app_nil_r in H. exact H.
Qed.

(** X1: a candidate the substring filter keeps is one the fuzzy scorer
    matches: its score is [10 * len(q) - len(t) // 4], not the value for
    no match by failure of the scan. *)
Theorem fuzzy_score_of_substring (q t : string) :
  Py.contains (Py.lower q) (Py.lower t) = true ->
  (exists pos, matched_at (Py.lower q) (Py.lower t) 0 pos) /\
  fuzzy_score q t =
  10 * Z.of_nat (String.length q) - Z.of_nat (String.length t) / 4.
Proof.
  intros Hc. apply contains_spec in Hc. destruct Hc as [pre [post Ht]].
  assert (Hm : matched_at (Py.lower q) (Py.lower t) 0
                 (List.seq (String.length pre)
                           (String.length (Py.lower q)))).
  { rewrite Ht. apply matched_at_block. lia. }
  split; [eexists; exact Hm|]. exact (fuzzy_score_found q t _ Hm).
Qed.

Lemma fuzzy_score_of_substring_witness :
  Py.contains (Py.lower "AT") (Py.lower "catdoc") = true /\
  fuzzy_score "AT" "catdoc" = 19.
Proof.
  split; [reflexivity|].
  destruct (fuzzy_score_of_substring "AT" "catdoc" eq_refl) as [_ ->].
  reflexivity.
Defined.

(** X2: a pattern longer than the text never matches. *)
Theorem fuzzy_score_long_pattern (P T : string) :
  (String.length T < String.length P)%nat -> fuzzy_score P T = -1.
Proof.
  intros Hlen. apply fuzzy_score_not_found. intros pos Hm.
  apply matched_at_room in Hm. rewrite !lower_length in Hm. lia.
Qed.

Lemma fuzzy_score_long_pattern_witness :
  (String.length "aa" < String.length "aaa")%nat /\
  fuzzy_score "aaa" "aa" = -1.
Proof.
  assert (H : (String.length "aa" < String.length "aaa")%nat)
    by (simpl; lia).
  split; [exact H | exact (fuzzy_score_long_pattern "aaa" "aa" H)].
Defined.

(** X3: the score does not depend on the case of the pattern or of the
    text. *)
Theorem fuzzy_score_case_insensitive (P T : string) :
  fuzzy_score (Py.lower P) T = fuzzy_score P T /\
  fuzzy_score P (Py.lower T) = fuzzy_score P T /\
  fuzzy_score "GiT" "git" = fuzzy_score "git" "GIT".
Proof.
  unfold fuzzy_score. rewrite !lower_idem. repeat split.
Qed.

(** X4: no text scores higher for a pattern than the pattern itself, which
    scores [10 * len(P) - len(P) // 4]. *)
Theorem fuzzy_score_best_is_exact (P T : string) :
  fuzzy_score P P =
    10 * Z.of_nat (String.length P) - Z.of_nat (String.length P) / 4 /\
  fuzzy_score P T <= fuzzy_score P P.
Proof.
  assert (Hself : fuzzy_score P P =
    10 * Z.of_nat (String.length P) - Z.of_nat (String.length P) / 4)
    by exact (fuzzy_score_found P P _ (matched_at_refl (Py.lower P))).
  split; [exact Hself|]. rewrite Hself.
  assert (Hq : Z.of_nat (String.length P) / 4 <= Z.of_nat (String.length P))
    by (apply Z.div_le_upper_bound; lia).
  unfold fuzzy_score.
  destruct (fuzzy_loop_spec (Py.lower P) (Py.lower T) 0 0)
    as [[[pos Hm] Hv] | [_ Hv]]; rewrite Hv; [|lia].
  apply matched_at_room in Hm. rewrite !lower_length in *.
  assert (Z.of_nat (String.length P) / 4 <= Z.of_nat (String.length T) / 4)
    by (apply Z.div_le_mono; lia).
  lia.
Qed.

(** ** More on the session *)

Lemma run_app (its : list string) (evs evs' : list (Z * key)) :
  run its (evs ++ evs') = List.fold_left step evs' (run its evs).
Proof. unfold run. apply fold_left_app. Qed.

Lemma on_key_view (its : list string) (rows : Z) (k : key) (m m' : menu) :
  on_key rows k m = Running m' ->
  items m = its /\
  filtered m =
    List.filter (fun it => Py.contains (Py.lower (query m)) (Py.lower it))
                its ->
  items m' = its /\
  filtered m' =
    List.filter (fun it => Py.contains (Py.lower (query m')) (Py.lower it))
                its.
Proof.
  intros Hk [Hi Hv].
  assert (Hup : forall q,
    items (update_filter (set_query q m)) = its /\
    filtered (update_filter (set_query q m)) =
      List.filter
        (fun it => Py.contains
                     (Py.lower (query (update_filter (set_query q m))))
                     (Py.lower it)) its).
  { intros q. split; [exact Hi|].
    rewrite update_filter_view. simpl. rewrite Hi. reflexivity. }
  assert (Hmv : forall delta,
    items (move rows delta m) = its /\
    filtered (move rows delta m) =
      List.filter
        (fun it => Py.contains (Py.lower (query (move rows delta m)))
                               (Py.lower it)) its).
  { intros delta. destruct (move_fields rows delta m) as [-> [-> ->]].
    split; assumption. }
  destruct k as [| | | | | | | |data]; simpl in Hk;
    try discriminate;
    try (injection Hk as <-; first [apply Hmv | apply Hup]).
  - unfold launch_selected in Hk.
    destruct (negb (Py.list_truthy (filtered m)));
      [injection Hk as <-; split; assumption|].
    destruct (Py.getitem (filtered m) (selected m)); discriminate.
  - destruct (Py.isprintable data); [injection Hk as <-; apply Hup|].
    destruct (is_backspace data); injection Hk as <-;
      [apply Hup | split; assumption].
Qed.

Lemma reachable_view (its : list string) (m : menu) :
  reachable its m ->
  items m = its /\
  filtered m =
    List.filter (fun it => Py.contains (Py.lower (query m)) (Py.lower it))
                its.
Proof.
  induction 1 as [|m rows k m' _ IH Hk].
  - split; [reflexivity|].
    exact (update_filter_view (Menu 0 its EmptyString its 0)).
  - exact (on_key_view its rows k m m' Hk IH).
Qed.

(** Enter in a reachable menu: nothing on an empty view, else the session
    ends with the selected candidate; the index is never out of range. *)
Lemma launch_reachable (its : list string) (m : menu) :
  reachable its m ->
  (filtered m = [] /\ launch_selected m = Running m) \/
  (exists cmd,
      nth_error (filtered m) (Z.to_nat (selected m)) = Some cmd /\
      launch_selected m = Exited (Some cmd)).
Proof.
  intros Hr. unfold launch_selected.
  destruct (filtered m) as [|c l] eqn:Hf; [left; split; reflexivity|].
  right. assert (Hne : filtered m <> []) by (rewrite Hf; discriminate).
  destruct (reachable_bounds its m Hr) as [_ [_ [_ Hsel]]].
  specialize (Hsel Hne). rewrite Hf in Hsel. cbn [Py.list_truthy negb].
  unfold Py.getitem.
  destruct (0 <=? selected m) eqn:E; [|apply Z.leb_gt in E; lia].
  destruct (nth_error (c :: l) (Z.to_nat (selected m))) as [cmd|] eqn:En.
  - exists cmd. split; reflexivity.
  - apply nth_error_None in En. lia.
Qed.

(** The three ways one key press can end in a reachable menu. *)
Lemma on_key_outcome (its : list string) (rows : Z) (k : key) (m : menu) :
  reachable its m ->
  (exists m', on_key rows k m = Running m') \/
  on_key rows k m = Exited None \/
  (exists cmd, In cmd (filtered m) /\ on_key rows k m = Exited (Some cmd)).
Proof.
  intros Hr.
  destruct k as [| | | | | | | |data]; simpl;
    try (left; eexists; reflexivity); try (right; left; reflexivity).
  - destruct (launch_reachable its m Hr) as [[_ ->] | [cmd [Hn ->]]].
    + left. eexists; reflexivity.
    + right; right. exists cmd. split; [|reflexivity].
      exact (nth_error_In _ _ Hn).
  - destruct (Py.isprintable data); [left; eexists; reflexivity|].
    destruct (is_backspace data); left; eexists; reflexivity.
Qed.

(** Where a sequence of key presses can leave the session. *)
Lemma run_outcome (its : list string) (evs : list (Z * key)) :
  (exists m, run its evs = Running m /\ reachable its m) \/
  run its evs = Exited None \/
  (exists m cmd, reachable its m /\ In cmd (filtered m) /\
                 run its evs = Exited (Some cmd)).
Proof.
  induction evs as [|e evs IH] using rev_ind.
  - left. exists (init its). split; [reflexivity | constructor].
  - rewrite run_snoc.
    destruct IH as [[m [-> Hr]] | [-> | [m [cmd [Hr [Hin ->]]]]]]; simpl.
    + destruct (on_key_outcome its (fst e) (snd e) m Hr)
        as [[m' Hk] | [Hk | [cmd [Hin Hk]]]].
      * left. exists m'. split; [exact Hk|].
        exact (reach_key its m _ _ m' Hr Hk).
      * right; left. exact Hk.
      * right; right. exists m, cmd. auto.
    + right; left. reflexivity.
    + right; right. exists m, cmd. auto.
Qed.

(** X5: in every menu the session can reach, the candidate list is the one
    the menu was built with and the view is that list filtered by the
    current query, in the order of the list; so every entry of the view is
    a candidate. *)
Theorem view_always_filtered (its : list string) (m : menu) :
  reachable its m ->
  items m = its /\
  filtered m =
    List.filter (fun it => Py.contains (Py.lower (query m)) (Py.lower it))
                its /\
  (forall c, In c (filtered m) ->
             In c its /\ substring_of (Py.lower (query m)) (Py.lower c)).
Proof.
  intros Hr. destruct (reachable_view its m Hr) as [Hi Hv].
  split; [exact Hi|]. split; [exact Hv|].
  intros c Hc. rewrite Hv in Hc. apply filter_In in Hc.
  destruct Hc as [Hin Hc]. split; [exact Hin|].
  apply contains_spec. exact Hc.
Qed.

Lemma view_always_filtered_witness :
  reachable Scenario.two (Menu 1 Scenario.two "a" ["a"] 0) /\
  filtered (Menu 1 Scenario.two "a" ["a"] 0) =
    List.filter (fun it => Py.contains (Py.lower "a") (Py.lower it))
                Scenario.two.
Proof.
  assert (Hr : reachable Scenario.two (Menu 1 Scenario.two "a" ["a"] 0))
    by (apply (run_reachable _ Scenario.down_type); reflexivity).
  split; [exact Hr|].
  destruct (view_always_filtered _ _ Hr) as [_ [Hv _]]. exact Hv.
Defined.

(** X6: no sequence of key presses makes a handler raise: the index
    [launch_selected] uses is always in range. *)
Theorem run_never_raises (its : list string) (evs : list (Z * key)) :
  run its evs <> Raised.
Proof.
  destruct (run_outcome its evs)
    as [[m [-> _]] | [-> | [m [cmd [_ [_ ->]]]]]]; discriminate.
Qed.

(** X7: whatever [main] executes after a session is one of the candidates,
    not the empty string, called with itself as its only argument. *)
Theorem main_execs_candidate
  (its : list string) (evs : list (Z * key)) (r : option string)
  (file : string) (argv : list string) :
  run its evs = Exited r ->
  main_exec r = Some (file, argv) ->
  In file its /\ file <> "" /\ argv = [file] /\ r = Some file.
Proof.
  intros Hrun Hexec.
  destruct r as [cmd|]; simpl in Hexec; [|discriminate].
  destruct cmd as [|c cmd]; simpl in Hexec; [discriminate|].
  injection Hexec as <- <-.
  destruct (run_outcome its evs)
    as [[m [Hm _]] | [Hn | [m [cmd' [Hr [Hin Hx]]]]]];
    rewrite Hrun in *; try discriminate.
  injection Hx as <-.
  destruct (reachable_view its m Hr) as [_ Hv].
  rewrite Hv in Hin. apply filter_In in Hin.
  repeat split; try tauto. discriminate.
Qed.

Lemma main_execs_candidate_witness :
  run Scenario.commands [(20, Down); (20, Enter)] = Exited (Some "cat") /\
  main_exec (Some "cat") = Some ("cat", ["cat"]) /\
  In "cat" Scenario.commands.
Proof.
  assert (H1 : run Scenario.commands [(20, Down); (20, Enter)]
               = Exited (Some "cat")) by reflexivity.
  assert (H2 : main_exec (Some "cat") = Some ("cat", ["cat"]))
    by reflexivity.
  split; [exact H1|]. split; [exact H2|].
  exact (proj1 (main_execs_candidate _ _ _ _ _ H1 H2)).
Defined.

(** X8: Escape and Ctrl-C end the session from any menu with no result,
    whatever keys follow, and [main] then executes nothing. *)
Theorem cancel_ends_session
  (its : list string) (evs evs' : list (Z * key)) (m : menu)
  (rows : Z) (k : key) :
  run its evs = Running m ->
  k = Escape \/ k = CtrlC ->
  run its (evs ++ (rows, k) :: evs') = Exited None /\
  main_exec None = None.
Proof.
  intros Hrun Hk. split; [|reflexivity].
  rewrite run_app, Hrun. simpl.
  destruct Hk as [-> | ->]; apply exited_stays.
Qed.

Lemma cancel_ends_session_witness :
  run Scenario.two [(7, Down)]
    = Running (Menu 1 Scenario.two "" Scenario.two 1) /\
  run Scenario.two ([(7, Down)] ++ (7, Escape) :: [(7, Enter)])
    = Exited None.
Proof.
  assert (H : run Scenario.two [(7, Down)]
              = Running (Menu 1 Scenario.two "" Scenario.two 1))
    by reflexivity.
  split; [exact H|].
  exact (proj1 (cancel_ends_session _ _ [(7, Enter)] _ 7 Escape H
                  (or_introl eq_refl))).
Defined.

(** ** More on editing *)

Lemma drop_last_snoc (q : string) (c : ascii) :
  Py.drop_last (q ++ String c "") = q.
Proof.
  induction q as [|x q IH]; simpl; [reflexivity|].
  rewrite IH. destruct q; reflexivity.
Qed.

Lemma backspace_not_printable (data : string) :
  is_backspace data = true -> Py.isprintable data = false.
Proof.
  unfold is_backspace. rewrite orb_true_iff, !String.eqb_eq.
  intros [-> | ->]; reflexivity.
Qed.

Lemma substring_of_app_l (a b s : string) :
  substring_of (a ++ b) s -> substring_of a s.
Proof.
  intros [pre [post ->]]. exists pre, (b ++ post).
  rewrite str_app_assoc. reflexivity.
Qed.

Lemma filter_filter_implied {A : Type} (f g : A -> bool) (l : list A) :
  (forall x, f x = true -> g x = true) ->
  List.filter f (List.filter g l) = List.filter f l.
Proof.
  intros Himp. induction l as [|x l IH]; simpl; [reflexivity|].
  destruct (g x) eqn:Hg; simpl.
  - rewrite IH. reflexivity.
  - destruct (f x) eqn:Hf; [|exact IH].
    rewrite (Himp x Hf) in Hg. discriminate.
Qed.

Lemma update_filter_menu (m : menu) :
  update_filter m =
  Menu (scroll m) (items m) (query m)
       (List.filter (fun it => Py.contains (Py.lower (query m)) (Py.lower it))
                    (items m)) 0.
Proof. rewrite <- update_filter_view. reflexivity. Qed.

(** X9: typing one printable character and then backspace brings back the
    query and the view of a reachable menu; the selection is 0 and the
    scroll offset is the one before the two keys. *)
Theorem type_backspace_roundtrip
  (its : list string) (m : menu) (r1 r2 : Z) (c : ascii) (bs : string) :
  reachable its m ->
  Py.isprintable_char c = true ->
  is_backspace bs = true ->
  step (on_key r1 (Any (String c "")) m) (r2, Any bs) =
  Running (Menu (scroll m) (items m) (query m) (filtered m) 0).
Proof.
  intros Hr Hc Hbs. destruct (reachable_view its m Hr) as [Hi Hv].
  simpl. rewrite Hc. simpl.
  rewrite (backspace_not_printable bs Hbs), Hbs.
  rewrite !update_filter_menu. cbn [query items scroll set_query].
  rewrite drop_last_snoc, Hi, <- Hv. reflexivity.
Qed.

Lemma type_backspace_roundtrip_witness :
  reachable Scenario2.five Scenario2.scrolled /\
  Py.isprintable_char "c" = true /\
  is_backspace Scenario2.backspace = true /\
  step (on_key 7 (Any "c") Scenario2.scrolled) (7, Any Scenario2.backspace)
  = Running (Menu 1 Scenario2.five "" Scenario2.five 0).
Proof.
  assert (Hr : reachable Scenario2.five Scenario2.scrolled)
    by (apply (run_reachable _ [(7, Down); (8, Down)]); reflexivity).
  split; [exact Hr|]. split; [reflexivity|]. split; [reflexivity|].
  exact (type_backspace_roundtrip _ _ 7 7 "c" Scenario2.backspace
           Hr eq_refl eq_refl).
Defined.

(** X10: typing narrows the view: after printable input the view of a
    reachable menu is the view before, filtered by the longer query, so no
    candidate comes back that the shorter query had dropped. *)
Theorem typing_narrows
  (its : list string) (m : menu) (rows : Z) (data : string) :
  reachable its m ->
  Py.isprintable data = true ->
  exists m',
    on_key rows (Any data) m = Running m' /\
    query m' = query m ++ data /\
    filtered m' =
      List.filter
        (fun it => Py.contains (Py.lower (query m')) (Py.lower it))
        (filtered m) /\
    (forall c, In c (filtered m') -> In c (filtered m)).
Proof.
  intros Hr Hp. destruct (reachable_view its m Hr) as [Hi Hv].
  simpl. rewrite Hp. eexists. split; [reflexivity|].
  split; [reflexivity|].
  assert (Hnew : filtered (update_filter (set_query (query m ++ data) m)) =
    List.filter
      (fun it => Py.contains (Py.lower (query m ++ data)) (Py.lower it))
      (filtered m)).
  { rewrite update_filter_view. cbn [query items set_query].
    rewrite Hi. symmetry. rewrite Hv. apply filter_filter_implied.
    intros x Hx. apply contains_spec. apply contains_spec in Hx.
    rewrite lower_app in Hx. exact (substring_of_app_l _ _ _ Hx). }
  split; [exact Hnew|].
  intros c Hc. rewrite Hnew in Hc. apply filter_In in Hc. tauto.
Qed.

Lemma typing_narrows_witness :
  reachable Scenario.commands (init Scenario.commands) /\
  Py.isprintable "cat" = true /\
  exists m',
    on_key 20 (Any "cat") (init Scenario.commands) = Running m' /\
    forall c, In c (filtered m') -> In c Scenario.commands.
Proof.
  assert (Hr : reachable Scenario.commands (init Scenario.commands))
    by constructor.
  split; [exact Hr|]. split; [reflexivity|].
  destruct (typing_narrows _ _ 20 "cat" Hr eq_refl)
    as [m' [Hk [_ [_ Hin]]]].
  exists m'. split; [exact Hk | exact Hin].
Defined.

(** X11: the filter does not depend on the case of the query: the lowered
    query gives the view the query gives. *)
Theorem filter_case_insensitive (q : string) (m : menu) :
  filtered (update_filter (set_query (Py.lower q) m)) =
  filtered (update_filter (set_query q m)) /\
  filtered (update_filter (set_query "CAT" (init Scenario.commands))) =
    ["cat"; "catdoc"].
Proof.
  split; [|reflexivity].
  rewrite !update_filter_view. cbn [query items set_query].
  rewrite lower_idem. reflexivity.
Qed.

(** ** More on navigation *)

(** X12: in a reachable menu with a view that is not empty, Down then Up
    brings the selection back unless it was on the last entry; Up on the
    first entry and Down on the last leave the selection where it is. *)
Theorem down_up_selection (its : list string) (m : menu) (r1 r2 : Z) :
  reachable its m -> filtered m <> [] ->
  (selected m < Z.of_nat (List.length (filtered m)) - 1 ->
   selected (move r2 (-1) (move r1 1 m)) = selected m) /\
  (selected m = 0 -> selected (move r1 (-1) m) = 0) /\
  (selected m = Z.of_nat (List.length (filtered m)) - 1 ->
   selected (move r1 1 m) = selected m).
Proof.
  intros Hr Hne.
  destruct (reachable_bounds its m Hr) as [_ [_ [_ Hsel]]].
  specialize (Hsel Hne).
  destruct (move_fields r1 1 m) as [_ [Hf _]].
  assert (Hne' : filtered (move r1 1 m) <> []) by (rewrite Hf; exact Hne).
  rewrite (move_selected r2 (-1) _ Hne'), Hf.
  rewrite (move_selected r1 1 m Hne), (move_selected r1 (-1) m Hne).
  repeat split; intros; lia.
Qed.

Lemma down_up_selection_witness :
  reachable Scenario2.five Scenario2.scrolled /\
  filtered Scenario2.scrolled <> [] /\
  selected Scenario2.scrolled
    < Z.of_nat (List.length (filtered Scenario2.scrolled)) - 1 /\
  selected (move 7 (-1) (move 7 1 Scenario2.scrolled)) = 2.
Proof.
  assert (Hr : reachable Scenario2.five Scenario2.scrolled)
    by (apply (run_reachable _ [(7, Down); (8, Down)]); reflexivity).
  assert (Hne : filtered Scenario2.scrolled <> []) by discriminate.
  assert (Hlt : selected Scenario2.scrolled
                < Z.of_nat (List.length (filtered Scenario2.scrolled)) - 1)
    by (simpl; lia).
  split; [exact Hr|]. split; [exact Hne|]. split; [exact Hlt|].
  exact (proj1 (down_up_selection _ _ 7 7 Hr Hne) Hlt).
Defined.

(** X13: after a navigation key on a view that is not empty, the selection
    is inside the window of the height read at that key press, whatever an
    edit or a change of the terminal height had left before. *)
Theorem navigation_restores_window
  (its : list string) (m : menu) (rows : Z) (k : key) :
  reachable its m -> filtered m <> [] ->
  In k [Up; CtrlK; Down; CtrlJ] ->
  exists m',
    on_key rows k m = Running m' /\ scroll_inv (visible_rows rows) m'.
Proof.
  intros Hr Hne Hk.
  destruct (reachable_bounds its m Hr) as [_ [Hs _]].
  simpl in Hk.
  destruct Hk as [<- | [<- | [<- | [<- | []]]]]; simpl; eexists;
    (split; [reflexivity | apply move_rescrolls; assumption]).
Qed.

Lemma navigation_restores_window_witness :
  reachable Scenario.two (Menu 1 Scenario.two "" Scenario.two 0) /\
  filtered (Menu 1 Scenario.two "" Scenario.two 0) <> [] /\
  In Down [Up; CtrlK; Down; CtrlJ] /\
  exists m',
    on_key 7 Down (Menu 1 Scenario.two "" Scenario.two 0) = Running m' /\
    scroll_inv (visible_rows 7) m'.
Proof.
  assert (Hr : reachable Scenario.two (Menu 1 Scenario.two "" Scenario.two 0))
    by (apply (run_reachable _ Scenario.down_clear); reflexivity).
  assert (Hne : filtered (Menu 1 Scenario.two "" Scenario.two 0) <> [])
    by discriminate.
  assert (Hk : In Down [Up; CtrlK; Down; CtrlJ]) by (simpl; tauto).
  split; [exact Hr|]. split; [exact Hne|]. split; [exact Hk|].
  exact (navigation_restores_window _ _ 7 Down Hr Hne Hk).
Defined.

(** X14: the scroll offset of a reachable menu is never negative and never
    beyond the last index of the candidate list. *)
Theorem scroll_bounded (its : list string) (m : menu) :
  reachable its m ->
  0 <= scroll m <= Z.max 0 (Z.of_nat (List.length its) - 1) /\
  0 <= selected m <= Z.max 0 (Z.of_nat (List.length its) - 1).
Proof.
  intros Hr. destruct (reachable_bounds its m Hr) as [_ [Hs0 [Hsel0 _]]].
  enough (scroll m <= Z.max 0 (Z.of_nat (List.length its) - 1) /\
          selected m <= Z.max 0 (Z.of_nat (List.length its) - 1)) by lia.
  clear Hs0 Hsel0.
  induction Hr as [|m rows k m' Hr IH Hk]; [simpl; lia|].
  destruct (reachable_bounds its m Hr) as [_ [Hs0 [_ Hsel]]].
  destruct (reachable_view its m Hr) as [_ Hv].
  assert (Hlen : (List.length (filtered m) <= List.length its)%nat)
    by (rewrite Hv; apply filter_length_le).
  assert (Hup : forall q,
    scroll (update_filter (set_query q m))
      <= Z.max 0 (Z.of_nat (List.length its) - 1) /\
    selected (update_filter (set_query q m))
      <= Z.max 0 (Z.of_nat (List.length its) - 1))
    by (intros q; simpl; lia).
  assert (Hmv : forall delta,
    scroll (move rows delta m)
      <= Z.max 0 (Z.of_nat (List.length its) - 1) /\
    selected (move rows delta m)
      <= Z.max 0 (Z.of_nat (List.length its) - 1)).
  { intros delta. destruct (filtered m) as [|c l] eqn:Hf.
    - rewrite (move_empty rows delta m Hf). exact IH.
    - assert (Hne : filtered m <> []) by (rewrite Hf; discriminate).
      destruct (move_rescrolls rows delta m Hne Hs0) as [_ [Hle _]].
      pose proof (move_selected rows delta m Hne) as Hsl.
      pose proof (length_pos _ Hne). rewrite Hf in *. lia. }
  destruct k as [| | | | | | | |data]; simpl in Hk;
    try discriminate;
    try (injection Hk as <-; first [apply Hmv | apply Hup]).
  - unfold launch_selected in Hk.
    destruct (negb (Py.list_truthy (filtered m)));
      [injection Hk as <-; exact IH|].
    destruct (Py.getitem (filtered m) (selected m)); discriminate.
  - destruct (Py.isprintable data); [injection Hk as <-; apply Hup|].
    destruct (is_backspace data); injection Hk as <-;
      [apply Hup | exact IH].
Qed.

Lemma scroll_bounded_witness :
  reachable Scenario2.five Scenario2.scrolled /\
  0 <= scroll Scenario2.scrolled
    <= Z.max 0 (Z.of_nat (List.length Scenario2.five) - 1).
Proof.
  assert (Hr : reachable Scenario2.five Scenario2.scrolled)
    by (apply (run_reachable _ [(7, Down); (8, Down)]); reflexivity).
  split; [exact Hr | exact (proj1 (scroll_bounded _ _ Hr))].
Defined.

(** ** Whole sessions *)

(** X15: typing printable input into a fresh menu, one key press after the
    other, leaves the query that is their concatenation, the view of the
    candidates that contain it, and selection and scroll offset 0. *)
Theorem typing_builds_query (its : list string) (keys : list (Z * string)) :
  Forall (fun e => Py.isprintable (snd e) = true) keys ->
  run its (List.map (fun e => (fst e, Any (snd e))) keys) =
  Running
    (Menu 0 its (List.fold_left String.append (List.map snd keys) "")
       (List.filter
          (fun it =>
             Py.contains
               (Py.lower
                  (List.fold_left String.append (List.map snd keys) ""))
               (Py.lower it)) its)
       0).
Proof.
  induction keys as [|e keys IH] using rev_ind; intros Hp.
  - simpl. unfold run, init. simpl List.fold_left.
    rewrite update_filter_menu. reflexivity.
  - apply Forall_app in Hp. destruct Hp as [Hp He].
    inversion He as [|? ? Hd _]; subst.
    rewrite !map_app. cbn [List.map].
    rewrite run_snoc, (IH Hp), fold_left_app. simpl.
    rewrite Hd, update_filter_menu. reflexivity.
Qed.

Lemma typing_builds_query_witness :
  Forall (fun e => Py.isprintable (snd e) = true) [(20, "c"); (9, "AT")] /\
  run Scenario.commands [(20, Any "c"); (9, Any "AT")] =
  Running (Menu 0 Scenario.commands "cAT" ["cat"; "catdoc"] 0).
Proof.
  assert (H : Forall (fun e => Py.isprintable (snd e) = true)
                     [(20, "c"); (9, "AT")])
    by (repeat constructor).
  split; [exact H|].
  exact (typing_builds_query Scenario.commands [(20, "c"); (9, "AT")] H).
Defined.

Lemma downs_select (its : list string) (rs : list Z) :
  (List.length rs < List.length its)%nat ->
  exists scr,
    run its (List.map (fun r => (r, Down)) rs) =
    Running (Menu scr its "" its (Z.of_nat (List.length rs))).
Proof.
  induction rs as [|r rs IH] using rev_ind; intros Hlen.
  - exists 0. reflexivity.
  - rewrite length_app in Hlen. simpl in Hlen.
    destruct IH as [scr IH]; [lia|].
    rewrite map_app. cbn [List.map]. rewrite run_snoc, IH. simpl.
    unfold move.
    assert (Hne : its <> []) by (destruct its; [simpl in Hlen; lia |
                                               discriminate]).
    cbn [filtered]. rewrite (list_truthy_nonempty _ Hne).
    cbn [negb selected scroll items query]. eexists. f_equal. f_equal.
    rewrite length_app. simpl. lia.
Qed.

(** X16: in a fresh menu, Down pressed [n] times and then Enter ends the
    session with the candidate at index [n], for every index of the
    candidate list and whatever the terminal heights. *)
Theorem downs_then_enter
  (its : list string) (rs : list Z) (r : Z) (cmd : string) :
  nth_error its (List.length rs) = Some cmd ->
  run its (List.map (fun r => (r, Down)) rs ++ [(r, Enter)]) =
  Exited (Some cmd).
Proof.
  intros Hn.
  assert (Hlen : (List.length rs < List.length its)%nat)
    by (apply nth_error_Some; congruence).
  destruct (downs_select its rs Hlen) as [scr Hrun].
  rewrite run_snoc, Hrun. simpl. unfold launch_selected. cbn [filtered].
  assert (Hne : its <> []) by (destruct its; [simpl in Hlen; lia |
                                             discriminate]).
  rewrite (list_truthy_nonempty _ Hne). cbn [negb selected].
  unfold Py.getitem.
  destruct (0 <=? Z.of_nat (List.length rs)) eqn:E;
    [|apply Z.leb_gt in E; lia].
  rewrite Nat2Z.id, Hn. reflexivity.
Qed.

Lemma downs_then_enter_witness :
  nth_error Scenario.commands (List.length [7; 30]) = Some "catdoc" /\
  run Scenario.commands [(7, Down); (30, Down); (12, Enter)] =
  Exited (Some "catdoc").
Proof.
  assert (H : nth_error Scenario.commands (List.length [7; 30])
              = Some "catdoc") by reflexivity.
  split; [exact H|].
  exact (downs_then_enter Scenario.commands [7; 30] 12 "catdoc" H).
Defined.

(** ** Rendering *)

Lemma range_nil (a b : Z) : b <= a -> PyStr.range a b = [].
Proof.
  intros H. unfold PyStr.range.
  replace (Z.to_nat (b - a)) with 0%nat by lia. reflexivity.
Qed.

Lemma range_cons (a b : Z) :
  a < b -> PyStr.range a b = a :: PyStr.range (a + 1) b.
Proof.
  intros H. unfold PyStr.range.
  replace (Z.to_nat (b - a)) with (S (Z.to_nat (b - (a + 1)))) by lia.
  simpl. f_equal; [lia|].
  rewrite <- seq_shift, map_map. apply map_ext. intros k. lia.
Qed.

Lemma range_length (a b : Z) :
  List.length (PyStr.range a b) = Z.to_nat (b - a).
Proof. unfold PyStr.range. rewrite length_map, length_seq. reflexivity. Qed.

(** Induction on the length of a range. *)
Lemma range_ind (P : Z -> Z -> Prop) :
  (forall a b, b <= a -> P a b) ->
  (forall a b, a < b -> P (a + 1) b -> P a b) ->
  forall a b, P a b.
Proof.
  intros Hnil Hcons a b.
  remember (Z.to_nat (b - a)) as n eqn:Hn. revert a Hn.
  induction n as [|n IH]; intros a Hn.
  - apply Hnil. lia.
  - apply Hcons; [lia|]. apply IH. lia.
Qed.

Lemma range_in (a b i : Z) : In i (PyStr.range a b) <-> a <= i < b.
Proof.
  revert a b. apply (range_ind (fun a b => In i (PyStr.range a b)
                                           <-> a <= i < b)).
  - intros a b H. rewrite (range_nil a b H). simpl. lia.
  - intros a b H IH. rewrite (range_cons a b H). simpl. rewrite IH. lia.
Qed.

Lemma range_nth (a b : Z) (k : nat) :
  (k < Z.to_nat (b - a))%nat ->
  nth_error (PyStr.range a b) k = Some (a + Z.of_nat k).
Proof.
  intros H. unfold PyStr.range.
  rewrite nth_error_map, nth_error_seq.
  destruct (Nat.ltb_spec k (Z.to_nat (b - a))); [reflexivity | lia].
Qed.

Lemma range_count (a b s : Z) :
  List.length (List.filter (fun i => i =? s) (PyStr.range a b)) =
  if (a <=? s) && (s <? b) then 1%nat else 0%nat.
Proof.
  revert a b.
  apply (range_ind (fun a b =>
    List.length (List.filter (fun i => i =? s) (PyStr.range a b)) =
    if (a <=? s) && (s <? b) then 1%nat else 0%nat)).
  - intros a b H. rewrite (range_nil a b H). simpl.
    destruct (a <=? s) eqn:E1, (s <? b) eqn:E2; try reflexivity.
    apply Z.leb_le in E1. apply Z.ltb_lt in E2. lia.
  - intros a b H IH. rewrite (range_cons a b H). simpl.
    destruct (a =? s) eqn:E.
    + apply Z.eqb_eq in E. subst s. simpl. rewrite IH.
      replace (a + 1 <=? a) with false by (symmetry; apply Z.leb_gt; lia).
      replace (a <=? a) with true by (symmetry; apply Z.leb_le; lia).
      replace (a <? b) with true by (symmetry; apply Z.ltb_lt; lia).
      reflexivity.
    + apply Z.eqb_neq in E. rewrite IH.
      destruct (a + 1 <=? s) eqn:E1, (a <=? s) eqn:E2; try reflexivity.
      * apply Z.leb_le in E1. apply Z.leb_gt in E2. lia.
      * apply Z.leb_gt in E1. apply Z.leb_le in E2. lia.
Qed.

Lemma getitem_in_range {A : Type} (l : list A) (i : Z) :
  0 <= i < Z.of_nat (List.length l) ->
  exists x, Py.getitem l i = Some x /\ nth_error l (Z.to_nat i) = Some x.
Proof.
  intros H. unfold Py.getitem.
  destruct (0 <=? i) eqn:E; [|apply Z.leb_gt in E; lia].
  destruct (nth_error l (Z.to_nat i)) as [x|] eqn:En.
  - exists x. split; reflexivity.
  - apply nth_error_None in En. lia.
Qed.

(** The loop of [render_list] over indices of the view: two fragments per
    index, none raising. *)
Lemma render_rows_length (cols : Z) (m : menu) (indices : list Z) :
  (forall i, In i indices -> 0 <= i < Z.of_nat (List.length (filtered m))) ->
  exists lines,
    render_rows cols m indices = Some lines /\
    List.length lines = (2 * List.length indices)%nat.
Proof.
  induction indices as [|i indices IH]; intros Hin; simpl.
  - exists []. split; reflexivity.
  - destruct IH as [lines [Hl Hn]];
      [intros j Hj; apply Hin; right; exact Hj|].
    destruct (getitem_in_range (filtered m) i) as [item [Hg _]];
      [apply Hin; left; reflexivity|].
    unfold render_row. rewrite Hg, Hl. eexists. split; [reflexivity|].
    simpl. rewrite Hn. lia.
Qed.

Lemma render_rows_count (cols : Z) (m : menu) (indices : list Z)
  (lines : list (string * string)) :
  render_rows cols m indices = Some lines ->
  count_style "class:selected" lines =
  List.length (List.filter (fun i => i =? selected m) indices).
Proof.
  revert lines; induction indices as [|i indices IH]; intros lines; simpl.
  - intros H. injection H as <-. reflexivity.
  - unfold render_row.
    destruct (Py.getitem (filtered m) i) as [item|]; [|discriminate].
    destruct (render_rows cols m indices) as [rest|]; [|discriminate].
    intros H. injection H as <-. specialize (IH rest eq_refl).
    unfold count_style in *. simpl.
    destruct (i =? selected m); simpl; rewrite IH; reflexivity.
Qed.

Lemma render_rows_nth (cols : Z) (m : menu) (indices : list Z)
  (lines : list (string * string)) (k : nat) (i : Z) :
  render_rows cols m indices = Some lines ->
  nth_error indices k = Some i ->
  exists item,
    Py.getitem (filtered m) i = Some item /\
    nth_error lines (2 * k) =
      Some (if i =? selected m then "class:selected" else "class:item",
            PyStr.ljust
              ((if i =? selected m then "> " else "  ") ++ item)
              (cols - 2)) /\
    nth_error lines (2 * k + 1) =
      Some ("", String (ascii_of_nat 10) EmptyString).
Proof.
  revert lines k; induction indices as [|j indices IH]; intros lines k;
    cbn [render_rows].
  - intros _ Hk. destruct k; discriminate.
  - unfold render_row.
    destruct (Py.getitem (filtered m) j) as [item|] eqn:Hg; [|discriminate].
    destruct (render_rows cols m indices) as [rest|]; [|discriminate].
    intros H. injection H as <-. cbn [app]. destruct k as [|k].
    + simpl. intros H. injection H as <-. exists item. repeat split.
      exact Hg.
    + intros Hk. cbn [nth_error] in Hk.
      destruct (IH rest k eq_refl Hk) as [it [Hi [H0 H1]]].
      exists it. split; [exact Hi|].
      replace (2 * S k)%nat with (S (S (2 * k))) by lia.
      replace (S (S (2 * k)) + 1)%nat with (S (S (2 * k + 1))) by lia.
      split; [exact H0 | exact H1].
Qed.

Lemma spaces_length (n : nat) : String.length (PyStr.spaces n) = n.
Proof. induction n as [|n IH]; simpl; [reflexivity | now rewrite IH]. Qed.

Lemma render_list_rows_aux (its : list string) (m : menu) (rows cols : Z) :
  reachable its m ->
  exists lines,
    render_list rows cols m = Some lines /\
    List.length lines =
      (2 * Z.to_nat (Z.min (scroll m + visible_rows rows)
                           (Z.of_nat (List.length (filtered m)))
                     - scroll m))%nat.
Proof.
  intros Hr. destruct (reachable_bounds its m Hr) as [_ [Hs _]].
  unfold render_list.
  destruct (render_rows_length cols m
              (PyStr.range (scroll m)
                 (Z.min (scroll m + visible_rows rows)
                        (Z.of_nat (List.length (filtered m))))))
    as [lines [Hl Hn]].
  { intros i Hi. apply range_in in Hi. lia. }
  exists lines. split; [exact Hl|].
  rewrite range_length in Hn. exact Hn.
Qed.

(** X17: drawing the list of a reachable menu never raises; it draws one
    line and one line break per index from [scroll] up to
    [min(scroll + visible, len(filtered))], none if that is not above
    [scroll], and so at most [visible_rows] lines. *)
Theorem render_list_rows (its : list string) (m : menu) (rows cols : Z) :
  reachable its m ->
  exists lines,
    render_list rows cols m = Some lines /\
    Z.of_nat (List.length lines) =
      2 * Z.max 0 (Z.min (scroll m + visible_rows rows)
                         (Z.of_nat (List.length (filtered m))) - scroll m) /\
    Z.of_nat (List.length lines) <= 2 * visible_rows rows.
Proof.
  intros Hr. destruct (reachable_bounds its m Hr) as [_ [Hs _]].
  unfold render_list.
  destruct (render_rows_length cols m
              (PyStr.range (scroll m)
                 (Z.min (scroll m + visible_rows rows)
                        (Z.of_nat (List.length (filtered m))))))
    as [lines [Hl Hn]].
  { intros i Hi. apply range_in in Hi. lia. }
  exists lines. split; [exact Hl|].
  rewrite range_length in Hn.
  assert (1 <= visible_rows rows) by (unfold visible_rows; lia).
  split; lia.
Qed.

Lemma render_list_rows_witness :
  reachable Scenario2.five Scenario2.scrolled /\
  exists lines,
    render_list 8 20 Scenario2.scrolled = Some lines /\
    Z.of_nat (List.length lines) = 4.
Proof.
  assert (Hr : reachable Scenario2.five Scenario2.scrolled)
    by (apply (run_reachable _ [(7, Down); (8, Down)]); reflexivity).
  split; [exact Hr|].
  destruct (render_list_rows _ _ 8 20 Hr) as [lines [Hl [Hn _]]].
  exists lines. split; [exact Hl|]. rewrite Hn. reflexivity.
Defined.

(** X18: the drawn list marks the selection exactly once when the selected
    index is inside the drawn window, [scroll <= selected <
    min(scroll + visible, len(filtered))], and not at all otherwise: a
    selection above the scroll offset is not shown. *)
Theorem render_list_marker
  (m : menu) (rows cols : Z) (lines : list (string * string)) :
  render_list rows cols m = Some lines ->
  count_style "class:selected" lines =
  if (scroll m <=? selected m) &&
     (selected m <? Z.min (scroll m + visible_rows rows)
                          (Z.of_nat (List.length (filtered m))))
  then 1%nat else 0%nat.
Proof.
  unfold render_list. intros H.
  rewrite (render_rows_count cols m _ lines H). apply range_count.
Qed.

Lemma render_list_marker_witness :
  render_list 7 20 (Menu 1 Scenario.two "" Scenario.two 0) =
    Some [("class:item", "  b               ");
          ("", String (ascii_of_nat 10) EmptyString)] /\
  count_style "class:selected"
    [("class:item", "  b               ");
     ("", String (ascii_of_nat 10) EmptyString)] = 0%nat.
Proof.
  assert (H : render_list 7 20 (Menu 1 Scenario.two "" Scenario.two 0) =
    Some [("class:item", "  b               ");
          ("", String (ascii_of_nat 10) EmptyString)]) by reflexivity.
  split; [exact H|].
  rewrite (render_list_marker _ 7 20 _ H). reflexivity.
Defined.

(** X19: the [k]-th line drawn for a reachable menu shows the candidate at
    index [scroll + k] of the view, after ["> "] and in the selected style
    if that index is the selection, after two spaces in the item style
    otherwise, padded to the width less 2, and a line break follows it. *)
Theorem render_list_window
  (its : list string) (m : menu) (rows cols : Z)
  (lines : list (string * string)) (k : nat) :
  reachable its m ->
  render_list rows cols m = Some lines ->
  (2 * k < List.length lines)%nat ->
  exists item,
    nth_error (filtered m) (Z.to_nat (scroll m) + k) = Some item /\
    nth_error lines (2 * k) =
      Some (if scroll m + Z.of_nat k =? selected m
            then "class:selected" else "class:item",
            PyStr.ljust
              ((if scroll m + Z.of_nat k =? selected m then "> " else "  ")
               ++ item)
              (cols - 2)) /\
    nth_error lines (2 * k + 1) =
      Some ("", String (ascii_of_nat 10) EmptyString).
Proof.
  intros Hr Hl Hk. destruct (reachable_bounds its m Hr) as [_ [Hs _]].
  destruct (render_list_rows_aux its m rows cols Hr) as [lines' [Hl' Hn]].
  rewrite Hl in Hl'. injection Hl' as <-.
  unfold render_list in Hl.
  set (stop := Z.min (scroll m + visible_rows rows)
                     (Z.of_nat (List.length (filtered m)))) in *.
  assert (Hkn : (k < Z.to_nat (stop - scroll m))%nat) by lia.
  destruct (render_rows_nth cols m _ lines k _ Hl
              (range_nth (scroll m) stop k Hkn)) as [item [Hg [H0 H1]]].
  exists item. split; [|split; assumption].
  destruct (getitem_in_range (filtered m) (scroll m + Z.of_nat k))
    as [x [Hx Hnth]]; [subst stop; lia|].
  rewrite Hg in Hx. injection Hx as <-.
  rewrite <- Hnth. f_equal. lia.
Qed.

Lemma render_list_window_witness :
  reachable Scenario2.five Scenario2.scrolled /\
  exists lines,
    render_list 8 9 Scenario2.scrolled = Some lines /\
    (2 * 1 < List.length lines)%nat /\
    nth_error lines (2 * 1) = Some ("class:selected", "> c    ").
Proof.
  assert (Hr : reachable Scenario2.five Scenario2.scrolled)
    by (apply (run_reachable _ [(7, Down); (8, Down)]); reflexivity).
  split; [exact Hr|].
  eexists. split; [reflexivity|].
  assert (Hk : (2 * 1 < 4)%nat) by lia.
  split; [exact Hk|].
  destruct (render_list_window _ _ 8 9 _ 1 Hr eq_refl Hk)
    as [item [Hi [H0 _]]].
  injection Hi as <-. exact H0.
Defined.

(** X20: the input line shows the whole query after the label, followed
    only by spaces: it is never cut, and is [cols - 2] characters long
    unless label and query are longer. *)
Theorem render_input_shows_query (cols : Z) (m : menu) :
  exists pad,
    render_input cols m =
      [("class:input", " Search: " ++ query m ++ PyStr.spaces pad)] /\
    Z.of_nat (String.length (" Search: " ++ query m ++ PyStr.spaces pad)) =
      Z.max (cols - 2) (9 + Z.of_nat (String.length (query m))).
Proof.
  unfold render_input, PyStr.ljust. eexists. split.
  - rewrite str_app_assoc. reflexivity.
  - rewrite !str_app_length, spaces_length. simpl String.length. lia.
Qed.

(** ** [scan_path] *)

Lemma split_nonempty (sep : ascii) (s : string) : PyStr.split sep s <> [].
Proof.
  induction s as [|c s IH]; simpl; [discriminate|].
  destruct (Ascii.eqb c sep); [discriminate|].
  destruct (PyStr.split sep s); discriminate.
Qed.

(** Joining the pieces with the separator gives the string back. *)
Lemma split_concat (sep : ascii) (s : string) :
  String.concat (String sep "") (PyStr.split sep s) = s.
Proof.
  induction s as [|c s IH]; simpl; [reflexivity|].
  pose proof (split_nonempty sep s) as Hne.
  destruct (Ascii.eqb c sep) eqn:E.
  - apply Ascii.eqb_eq in E. subst c.
    destruct (PyStr.split sep s) as [|p ps]; [congruence|].
    change (String.concat (String sep "") ("" :: p :: ps))
      with ("" ++ String sep "" ++ String.concat (String sep "") (p :: ps)).
    rewrite IH. reflexivity.
  - destruct (PyStr.split sep s) as [|p ps]; [congruence|].
    destruct ps as [|p' ps]; simpl in *; rewrite <- IH; reflexivity.
Qed.

Lemma mem_in (x : string) (seen : list string) :
  PyStr.mem x seen = true <-> In x seen.
Proof.
  unfold PyStr.mem. rewrite existsb_exists. split.
  - intros [y [Hy He]]. apply String.eqb_eq in He. subst y. exact Hy.
  - intros H. exists x. split; [exact H | apply String.eqb_refl].
Qed.

(** The order of [list.sort()] on strings. *)

Lemma ascii_compare_refl (a : ascii) : Ascii.compare a a = Eq.
Proof. unfold Ascii.compare. apply N.compare_refl. Qed.

Lemma ascii_compare_lt_trans (a b c : ascii) :
  Ascii.compare a b = Lt -> Ascii.compare b c = Lt ->
  Ascii.compare a c = Lt.
Proof.
  unfold Ascii.compare. rewrite !N.compare_lt_iff. apply N.lt_trans.
Qed.

Lemma str_compare_lt_trans (a b c : string) :
  String.compare a b = Lt -> String.compare b c = Lt ->
  String.compare a c = Lt.
Proof.
  revert b c; induction a as [|x a IH]; intros [|y b] [|z c]; simpl;
    try discriminate; try reflexivity.
  destruct (Ascii.compare x y) eqn:Exy; try discriminate;
    destruct (Ascii.compare y z) eqn:Eyz; try discriminate; intros H1 H2.
  - apply Ascii.compare_eq_iff in Exy, Eyz. subst.
    rewrite ascii_compare_refl. exact (IH _ _ H1 H2).
  - apply Ascii.compare_eq_iff in Exy. subst. rewrite Eyz. reflexivity.
  - apply Ascii.compare_eq_iff in Eyz. subst. rewrite Exy. reflexivity.
  - rewrite (ascii_compare_lt_trans _ _ _ Exy Eyz). reflexivity.
Qed.

Lemma ltb_trans (a b c : string) :
  String.ltb a b = true -> String.ltb b c = true -> String.ltb a c = true.
Proof.
  unfold String.ltb.
  destruct (String.compare a b) eqn:E1; try discriminate.
  destruct (String.compare b c) eqn:E2; try discriminate.
  rewrite (str_compare_lt_trans _ _ _ E1 E2). reflexivity.
Qed.

Lemma leb_neq_ltb (a b : string) :
  String.leb a b = true -> a <> b -> String.ltb a b = true.
Proof.
  unfold String.leb, String.ltb.
  destruct (String.compare a b) eqn:E; try discriminate; try reflexivity.
  intros _ Hne. apply String.compare_eq_iff in E. contradiction.
Qed.

Lemma insert_perm (x : string) (l : list string) :
  Permutation (x :: l) (PyStr.insert x l).
Proof.
  induction l as [|y l IH]; simpl; [reflexivity|].
  destruct (String.leb x y); [reflexivity|].
  rewrite perm_swap. constructor. exact IH.
Qed.

Lemma sort_perm (l : list string) : Permutation l (PyStr.sort l).
Proof.
  induction l as [|x l IH]; simpl; [constructor|].
  rewrite <- insert_perm. constructor. exact IH.
Qed.

Lemma insert_sorted (x : string) (l : list string) :
  Sorted (fun a b => String.leb a b = true) l ->
  Sorted (fun a b => String.leb a b = true) (PyStr.insert x l).
Proof.
  induction l as [|y l IH]; intros Hs; simpl.
  - repeat constructor.
  - destruct (String.leb x y) eqn:E.
    + constructor; [exact Hs | constructor; exact E].
    + inversion Hs as [|? ? Hs' Hhd]; subst.
      constructor; [exact (IH Hs')|].
      assert (Hyx : String.leb y x = true)
        by (destruct (String.leb_total x y); congruence).
      destruct l as [|z l]; simpl; [constructor; exact Hyx|].
      destruct (String.leb x z); constructor; [exact Hyx|].
      inversion Hhd; assumption.
Qed.

Lemma sort_sorted (l : list string) :
  Sorted (fun a b => String.leb a b = true) (PyStr.sort l).
Proof.
  induction l as [|x l IH]; simpl; [constructor|].
  apply insert_sorted. exact IH.
Qed.

(** Sorted without repetition is strictly increasing, every entry below
    all the later ones. *)
Lemma sorted_nodup_strict (l : list string) :
  Sorted (fun a b => String.leb a b = true) l -> NoDup l ->
  StronglySorted (fun a b => String.ltb a b = true) l.
Proof.
  intros Hs Hnd. apply Sorted_StronglySorted.
  - intros a b c. apply ltb_trans.
  - induction Hs as [|x l Hs IH Hhd]; [constructor|].
    inversion Hnd as [|? ? Hx Hnd']; subst.
    constructor; [exact (IH Hnd')|].
    destruct Hhd as [|y l Hxy]; constructor.
    apply leb_neq_ltb; [exact Hxy|].
    intros ->. apply Hx. left. reflexivity.
Qed.

(** The loop over one directory: [seen] keeps the members of [result],
    [result] stays without repetition, and gains the names that pass the
    two checks. *)
Lemma scan_names_spec (fs : filesystem) (d : string) (names : list string) :
  forall seen result,
    (forall x, PyStr.mem x seen = true <-> In x result) ->
    NoDup result ->
    (forall x, PyStr.mem x (fst (scan_names fs d names seen result)) = true
               <-> In x (snd (scan_names fs d names seen result))) /\
    NoDup (snd (scan_names fs d names seen result)) /\
    (forall x, In x (snd (scan_names fs d names seen result)) <->
               In x result \/
               (In x names /\
                access_x fs (PyStr.path_join d x) = true /\
                isfile fs (PyStr.path_join d x) = true)).
Proof.
  induction names as [|name names IH]; intros seen result Hseen Hnd;
    cbn [scan_names].
  - simpl. split; [exact Hseen|]. split; [exact Hnd|]. intros x. tauto.
  - destruct (PyStr.mem name seen) eqn:Hm; cbn [negb andb].
    + destruct (IH seen result Hseen Hnd) as [H1 [H2 H3]].
      split; [exact H1|]. split; [exact H2|].
      intros x. rewrite H3. simpl. split; [tauto|].
      intros [Hx | [[<- | Hx] Hc]]; try tauto.
      left. apply Hseen. exact Hm.
    + destruct (access_x fs (PyStr.path_join d name)) eqn:Ha;
        cbn [andb];
        [destruct (isfile fs (PyStr.path_join d name)) eqn:Hf|].
      * assert (Hnot : ~ In name result)
          by (intros Hin; apply Hseen in Hin; congruence).
        destruct (IH (name :: seen) (result ++ [name])%list)
          as [H1 [H2 H3]].
        { intros x. unfold PyStr.mem in *. simpl.
          rewrite orb_true_iff, in_app_iff, String.eqb_eq, (Hseen x).
          simpl. split; [intros [-> | H]; auto | intros [H | [-> | []]]; auto]. }
        { apply NoDup_app; [exact Hnd | repeat constructor; simpl; tauto|].
          intros x Hx [<- | []]. exact (Hnot Hx). }
        split; [exact H1|]. split; [exact H2|].
        intros x. rewrite H3, in_app_iff. simpl. split.
        -- intros [[Hx | [<- | []]] | [Hx Hc]].
           ++ left. exact Hx.
           ++ right. split; [left; reflexivity | split; assumption].
           ++ right. split; [right; exact Hx | exact Hc].
        -- intros [Hx | [[<- | Hx] Hc]].
           ++ left. left. exact Hx.
           ++ left. right. left. reflexivity.
           ++ right. split; assumption.
      * destruct (IH seen result Hseen Hnd) as [H1 [H2 H3]].
        split; [exact H1|]. split; [exact H2|].
        intros x. rewrite H3. simpl. split; [tauto|].
        intros [Hx | [[<- | Hx] [Hc1 Hc2]]]; try tauto. congruence.
      * destruct (IH seen result Hseen Hnd) as [H1 [H2 H3]].
        split; [exact H1|]. split; [exact H2|].
        intros x. rewrite H3. simpl. split; [tauto|].
        intros [Hx | [[<- | Hx] [Hc1 Hc2]]]; try tauto. congruence.
Qed.

(** The loop over the directories: directories that are not directories
    or cannot be listed add nothing. *)
Lemma scan_dirs_spec (fs : filesystem) (dirs : list string) :
  forall seen result,
    (forall x, PyStr.mem x seen = true <-> In x result) ->
    NoDup result ->
    NoDup (scan_dirs fs dirs seen result) /\
    (forall x, In x (scan_dirs fs dirs seen result) <->
               In x result \/ on_path fs dirs x).
Proof.
  induction dirs as [|d dirs IH]; intros seen result Hseen Hnd;
    cbn [scan_dirs].
  - split; [exact Hnd|]. intros x. split; [tauto|].
    intros [H | [d [names [[] _]]]]. exact H.
  - assert (Hskip : forall x,
      (isdir fs d = false \/ listdir fs d = PermissionDenied) ->
      (In x result \/ on_path fs dirs x <->
       In x result \/ on_path fs (d :: dirs) x)).
    { intros x Hd. split.
      - intros [H | [d' [names [Hin Hrest]]]]; [tauto|].
        right. exists d', names. split; [right; exact Hin | exact Hrest].
      - intros [H | [d' [names [[<- | Hin] [Hdir [Hls Hrest]]]]]];
          [tauto | destruct Hd; congruence|].
        right. exists d', names. tauto. }
    destruct (isdir fs d) eqn:Hdir; cbn [negb].
    + destruct (listdir fs d) as [names|] eqn:Hls.
      * destruct (scan_names_spec fs d names seen result Hseen Hnd)
          as [H1 [H2 H3]].
        destruct (scan_names fs d names seen result) as [seen' result'].
        cbn [fst snd] in *.
        destruct (IH seen' result' H1 H2) as [H4 H5].
        split; [exact H4|]. intros x. rewrite H5, H3. split.
        -- intros [[Hx | [Hx Hc]] | [d' [names' [Hin Hrest]]]].
           ++ left. exact Hx.
           ++ right. exists d, names.
              split; [left; reflexivity | tauto].
           ++ right. exists d', names'.
              split; [right; exact Hin | exact Hrest].
        -- intros [Hx | [d' [names' [[<- | Hin] [Hd [Hl Hrest]]]]]].
           ++ left. left. exact Hx.
           ++ left. right. rewrite Hls in Hl. injection Hl as <-. exact Hrest.
           ++ right. exists d', names'. tauto.
      * destruct (IH seen result Hseen Hnd) as [H4 H5].
        split; [exact H4|]. intros x. rewrite H5. apply Hskip. tauto.
    + destruct (IH seen result Hseen Hnd) as [H4 H5].
      split; [exact H4|]. intros x. rewrite H5. apply Hskip. tauto.
Qed.

Lemma scan_dirs_fresh (fs : filesystem) (dirs : list string) :
  NoDup (scan_dirs fs dirs [] []) /\
  (forall x, In x (scan_dirs fs dirs [] []) <-> on_path fs dirs x).
Proof.
  destruct (scan_dirs_spec fs dirs [] []) as [H1 H2].
  - intros x. simpl. split; [discriminate | tauto].
  - constructor.
  - split; [exact H1|]. intros x. rewrite H2. simpl. tauto.
Qed.

(** X21: the list [scan_path] returns is strictly increasing in the order
    of Python strings: it is sorted and no name occurs twice, even when
    several directories of the search path hold it. *)
Theorem scan_path_sorted (fs : filesystem) (path_env : option string) :
  StronglySorted (fun a b => String.ltb a b = true)
                 (scan_path fs path_env) /\
  NoDup (scan_path fs path_env).
Proof.
  unfold scan_path.
  set (found := scan_dirs fs _ [] []).
  assert (Hnd : NoDup (PyStr.sort found)).
  { apply (Permutation_NoDup (sort_perm found)).
    apply scan_dirs_fresh. }
  split; [|exact Hnd].
  apply sorted_nodup_strict; [apply sort_sorted | exact Hnd].
Qed.

(** X22: [scan_path] returns the names that some directory of the search
    path lists as an executable regular file, and only those; pieces of the
    path that are not directories, and directories that cannot be read, add
    nothing. *)
Theorem scan_path_finds
  (fs : filesystem) (path_env : option string) (name : string) :
  In name (scan_path fs path_env) <->
  on_path fs
    (PyStr.split ":" (match path_env with Some p => p | None => "" end))
    name.
Proof.
  unfold scan_path.
  set (dirs := PyStr.split ":" _).
  destruct (scan_dirs_fresh fs dirs) as [_ Hin].
  rewrite <- Hin. split.
  - apply Permutation_in. symmetry. apply sort_perm.
  - apply Permutation_in. apply sort_perm.
Qed.

(** Two directories and a piece of the path that is no directory between
    them: the names come out sorted, [cat] once, [notes] left out. *)
Example scan_path_scenario :
  scan_path Scenario2.fs (Some Scenario2.path) = ["bash"; "cat"; "ls"] /\
  PyStr.split ":" Scenario2.path = ["/usr/bin"; "/nowhere"; "/bin"] /\
  scan_path Scenario2.fs None = [].
Proof. repeat split. Qed.
